(** * Orchestrated order saga: orchestrator and participants

    A shallow embedding of the Go services of [exemplos/saga/orquestrado]:
    the orchestrator ([orquestrador/main.go]) and the participants
    [pedidos], [estoque], [pagamentos] and [entregas].  Each service is a
    process with a PostgreSQL table, a Kafka producer and a Kafka consumer
    group; the embedding threads one [World] per process through a state
    monad and keeps every call to the database, to the broker, to the
    clock and to [math/rand] explicit.

    Modelling boundary.
    - [json.Marshal]/[json.Unmarshal] are library code: a message body is
      the document a service of the saga marshals ([Wire]), or bytes
      that are not JSON, known by the message of the decoder's syntax
      error.  A body is modelled where its schema belongs: an object on
      the ingress topic, a command on a command topic, a reply on a reply
      topic.  What [json.Unmarshal] makes of a document of another schema
      (it fills the fields whose keys match and leaves the others zero)
      is not modelled; the decoders answer [ErrJSON] there, and every
      statement about a body that is rejected names [WInvalid].
    - The literal [null], which on the ingress topic makes
      [startNewSaga] write to a nil map, is left out.
    - [saga_events.created_at] grows with the insertion order, so that
      [ORDER BY created_at DESC LIMIT 1] is the row inserted last.
    - A database call fails when the schedule of faults says so.  The
      column types and the primary keys of the tables are not part of
      [db_Exec]; the statements that depend on them carry them as
      hypotheses ([orders_accepts], [stock_reservations_accepts]).
    - A JSON number is the rational its literal denotes.  [int(f)] is
      modelled where the literal is whole and within the range of [int].
    - Log output is modelled for the orchestrator only. *)

From stdpp Require Import gmap strings list fin_maps pretty.
From Stdlib Require Import QArith.

Set Warnings "-register-all".
Close Scope Q_scope.
Local Open Scope string_scope.

(** ** JSON values and Go maps *)

(** What [encoding/json] stores in an [interface{}]: [nil], [bool],
    [float64] (every JSON number), [string], [[]interface{}] and
    [map[string]interface{}].  A [float64] read from a JSON literal is a
    rational. *)
Inductive Value : Type :=
| VNull
| VBool (b : bool)
| VNum (q : Q)
| VStr (s : string)
| VArr (l : list Value)
| VObj (m : gmap string Value).

(** [map[string]interface{}]: [None] is the nil map. *)
Abbreviation GoMap := (option (gmap string Value)).

(** [v, ok := m[key]]; reading a nil map finds nothing. *)
Definition index (m : GoMap) (key : string) : option Value :=
  match m with
  | Some entries => entries !! key
  | None => None
  end.

(** [s, ok := v.(string)] on the result of an index expression. *)
Definition assertString (v : option Value) : option string :=
  match v with
  | Some (VStr s) => Some s
  | _ => None
  end.

(** [f, ok := v.(float64)]. *)
Definition assertFloat64 (v : option Value) : option Q :=
  match v with
  | Some (VNum q) => Some q
  | _ => None
  end.

(** [int(f)] truncates toward zero.  This is the conversion for an [f]
    within the range of [int]; beyond it the result depends on the
    processor, and the statements that store the result bound it. *)
Definition int_of_float64 (q : Q) : Z := Z.quot (Qnum q) (Z.pos (Qden q)).

(** An [int] stored in an [interface{}] leaves [json.Marshal] as a number. *)
Definition VInt (n : Z) : Value := VNum (inject_Z n).

(** [time.Time] values are kept as their [UnixNano]. *)
Abbreviation time_Time := Z.

(** ** Envelopes shared by all services

    Every [main.go] declares the same [Command] and [Reply] structs. *)

Module Command.
Record t : Type := mk {
  CommandID : string;
  SagaID : string;
  OrderID : string;
  CommandType : string;
  Payload : GoMap;
  Timestamp : time_Time
}.
End Command.

Module Reply.
Record t : Type := mk {
  ReplyID : string;
  CommandID : string;
  SagaID : string;
  Success : bool;
  Message : string;
  Data : GoMap;
  Timestamp : time_Time
}.
End Reply.

(** The bytes of a Kafka message. *)
Inductive Wire : Type :=
| WObject (m : gmap string Value)   (* a JSON object without a struct *)
| WCommand (c : Command.t)          (* json.Marshal(cmd) *)
| WReply (r : Reply.t)              (* json.Marshal(reply) *)
| WInvalid (text : string).         (* bytes that are not JSON, by the message
                                       of the decoder's *json.SyntaxError *)

(** [sarama.ProducerMessage]; [Key] is a [sarama.Encoder], nil when the
    literal does not set it. *)
Module ProducerMessage.
Record t : Type := mk {
  Topic : string;
  Key : option string;
  Value : Wire
}.
End ProducerMessage.

(** [sarama.ConsumerMessage], as far as the handlers read it. *)
Module ConsumerMessage.
Record t : Type := mk {
  Topic : string;
  Key : option string;
  Value : Wire
}.
End ConsumerMessage.

(** Go's [error] values that the services meet. *)
Inductive error : Type :=
| ErrNoRows        (* sql.ErrNoRows, from Row.Scan *)
| ErrDB            (* any other failure of the database call *)
| ErrProducer      (* producer.SendMessage failed *)
| ErrJSON          (* a document of another schema, see the boundary *)
| ErrSyntax (text : string).   (* *json.SyntaxError, with its message *)

(** [err.Error()].  The text of [sql.ErrNoRows] is the library's and a
    syntax error prints the message it carries; the others stand for
    whatever the driver or the client reports. *)
Definition err_Error (e : error) : string :=
  match e with
  | ErrNoRows => "sql: no rows in result set"
  | ErrDB => "pq: database call failed"
  | ErrProducer => "kafka: failed to deliver message"
  | ErrJSON => "json: document of another schema"
  | ErrSyntax text => text
  end.

(** [json.Unmarshal(body, &reply)]: the reply a service marshalled, or
    the syntax error of bytes that are not JSON. *)
Definition json_Unmarshal_Reply (body : Wire) : Reply.t + error :=
  match body with
  | WReply r => inl r
  | WInvalid text => inr (ErrSyntax text)
  | _ => inr ErrJSON
  end.

(** [json.Unmarshal(body, &cmd)] *)
Definition json_Unmarshal_Command (body : Wire) : Command.t + error :=
  match body with
  | WCommand c => inl c
  | WInvalid text => inr (ErrSyntax text)
  | _ => inr ErrJSON
  end.

(** [json.Unmarshal(data, &orderData)] *)
Definition json_Unmarshal_map (body : Wire) : gmap string Value + error :=
  match body with
  | WObject m => inl m
  | WInvalid text => inr (ErrSyntax text)
  | _ => inr ErrJSON
  end.

(** ** One service process *)

(** The state one service acts on.  [Row] is the row type of its table. *)
Record World (Row : Type) : Type := mkWorld {
  clock : nat -> time_Time;        (* successive readings of time.Now() *)
  ticks : nat;                (* readings taken so far *)
  rfc3339 : time_Time -> string;   (* Format(time.RFC3339) in the local zone *)
  rand : nat -> Z;            (* successive results of rand.Intn(100) *)
  rolls : nat;                (* draws taken so far *)
  db_faults : list bool;      (* database calls to come: true = fails *)
  table : list Row;           (* the rows, in insertion order *)
  bus_faults : list bool;     (* SendMessage calls to come: true = fails *)
  sent : list ProducerMessage.t;     (* accepted by the broker, oldest first *)
  marked : list ConsumerMessage.t;   (* session.MarkMessage, oldest first *)
  logs : list string          (* log.Printf lines, oldest first *)
}.

Arguments mkWorld {Row}.
Arguments clock {Row}.
Arguments ticks {Row}.
Arguments rfc3339 {Row}.
Arguments rand {Row}.
Arguments rolls {Row}.
Arguments db_faults {Row}.
Arguments table {Row}.
Arguments bus_faults {Row}.
Arguments sent {Row}.
Arguments marked {Row}.
Arguments logs {Row}.

(** State monad over a service's world. *)
Definition M (Row A : Type) : Type := World Row -> A * World Row.

Definition ret {Row A : Type} (a : A) : M Row A := fun w => (a, w).

Definition bind {Row A B : Type} (m : M Row A) (k : A -> M Row B) : M Row B :=
  fun w => let (a, w') := m w in k a w'.

Declare Scope go_scope.
Delimit Scope go_scope with go.
Bind Scope go_scope with M.

Notation "'let*' x ':=' c1 'in' c2" := (bind c1 (fun x => c2))
  (at level 10, x name, c1 at level 100, c2 at level 200) : go_scope.
Notation "'let*' ' pat ':=' c1 'in' c2" :=
  (bind c1 (fun x => match x with pat => c2 end))
  (at level 10, pat pattern, c1 at level 100, c2 at level 200) : go_scope.

Local Open Scope go_scope.

Section Runtime.
Context {Row : Type}.

(** The next entry of a fault schedule; an exhausted schedule has no
    more faults. *)
Definition next_fault (schedule : list bool) : bool * list bool :=
  match schedule with
  | [] => (false, [])
  | f :: rest => (f, rest)
  end.

(** [time.Now().UnixNano()] *)
Definition time_Now : M Row time_Time :=
  fun w =>
    (clock w (ticks w),
     mkWorld (clock w) (S (ticks w)) (rfc3339 w) (rand w) (rolls w)
       (db_faults w) (table w) (bus_faults w) (sent w) (marked w) (logs w)).

(** [t.Format(time.RFC3339)] *)
Definition Format_RFC3339 (t : time_Time) : M Row string :=
  fun w => (rfc3339 w t, w).

(** [rand.Intn(100)] *)
Definition rand_Intn_100 : M Row Z :=
  fun w =>
    (rand w (rolls w),
     mkWorld (clock w) (ticks w) (rfc3339 w) (rand w) (S (rolls w))
       (db_faults w) (table w) (bus_faults w) (sent w) (marked w) (logs w)).

(** [db.Exec(stmt)]: the statement changes the table unless the call fails. *)
Definition db_Exec (stmt : list Row -> list Row) : M Row (option error) :=
  fun w =>
    let (fault, rest) := next_fault (db_faults w) in
    if fault
    then (Some ErrDB,
          mkWorld (clock w) (ticks w) (rfc3339 w) (rand w) (rolls w)
            rest (table w) (bus_faults w) (sent w) (marked w) (logs w))
    else (None,
          mkWorld (clock w) (ticks w) (rfc3339 w) (rand w) (rolls w)
            rest (stmt (table w)) (bus_faults w) (sent w) (marked w) (logs w)).

(** [db.QueryRow(query).Scan(&x)]: [sql.ErrNoRows] when the query selects
    nothing. *)
Definition db_QueryRow {A : Type} (query : list Row -> option A) : M Row (A + error) :=
  fun w =>
    let (fault, rest) := next_fault (db_faults w) in
    let w' := mkWorld (clock w) (ticks w) (rfc3339 w) (rand w) (rolls w)
                rest (table w) (bus_faults w) (sent w) (marked w) (logs w) in
    if fault then (inr ErrDB, w')
    else match query (table w) with
         | Some a => (inl a, w')
         | None => (inr ErrNoRows, w')
         end.

(** [producer.SendMessage(msg)] of a sync producer. *)
Definition producer_SendMessage (msg : ProducerMessage.t) : M Row (option error) :=
  fun w =>
    let (fault, rest) := next_fault (bus_faults w) in
    if fault
    then (Some ErrProducer,
          mkWorld (clock w) (ticks w) (rfc3339 w) (rand w) (rolls w)
            (db_faults w) (table w) rest (sent w) (marked w) (logs w))
    else (None,
          mkWorld (clock w) (ticks w) (rfc3339 w) (rand w) (rolls w)
            (db_faults w) (table w) rest (sent w ++ [msg]) (marked w) (logs w)).

(** [session.MarkMessage(message, "")] *)
Definition session_MarkMessage (message : ConsumerMessage.t) : M Row unit :=
  fun w =>
    (tt,
     mkWorld (clock w) (ticks w) (rfc3339 w) (rand w) (rolls w)
       (db_faults w) (table w) (bus_faults w) (sent w) (marked w ++ [message]) (logs w)).

(** [log.Printf(...)], the formatted line given. *)
Definition log_Printf (line : string) : M Row unit :=
  fun w =>
    (tt,
     mkWorld (clock w) (ticks w) (rfc3339 w) (rand w) (rolls w)
       (db_faults w) (table w) (bus_faults w) (sent w) (marked w) (logs w ++ [line])).

(** [fmt.Sprintf("%d", time.Now().UnixNano())], the same in every service. *)
Definition generateID : M Row string :=
  let* now := time_Now in
  ret (pretty now).

(** [getStringFromPayload] *)
Definition getStringFromPayload (payload : GoMap) (key defaultValue : string) : string :=
  match assertString (index payload key) with
  | Some strVal => strVal
  | None => defaultValue
  end.

(** [getIntFromPayload] *)
Definition getIntFromPayload (payload : GoMap) (key : string) (defaultValue : Z) : Z :=
  match assertFloat64 (index payload key) with
  | Some intVal => int_of_float64 intVal
  | None => defaultValue
  end.

(** [getFloatFromPayload] *)
Definition getFloatFromPayload (payload : GoMap) (key : string) (defaultValue : Q) : Q :=
  match assertFloat64 (index payload key) with
  | Some floatVal => floatVal
  | None => defaultValue
  end.

(** [for message := range claim.Messages() { body }] *)
Fixpoint range {A : Type} (body : A -> M Row unit) (messages : list A) : M Row unit :=
  match messages with
  | [] => ret tt
  | message :: rest => let* _ := body message in range body rest
  end.

End Runtime.

(** [%t] *)
Definition fmt_bool (b : bool) : string := if b then "true" else "false".

(** ** The orchestrator ([orquestrador/main.go]) *)

Module Orquestrador.

(** [type SagaState string] and its constants. *)
Abbreviation SagaState := string.

Definition StatePending : SagaState := "PENDING".
Definition StateOrderValidated : SagaState := "ORDER_VALIDATED".
Definition StateStockReserved : SagaState := "STOCK_RESERVED".
Definition StatePaymentProcessed : SagaState := "PAYMENT_PROCESSED".
Definition StateDeliveryScheduled : SagaState := "DELIVERY_SCHEDULED".
Definition StateCompleted : SagaState := "COMPLETED".
Definition StateFailed : SagaState := "FAILED".
Definition StateCompensating : SagaState := "COMPENSATING".

Module SagaEvent.
Record t : Type := mk {
  SagaID : string;
  OrderID : string;
  State : SagaState;
  Data : GoMap;
  Timestamp : time_Time;
  Error : string
}.
End SagaEvent.

(** A row of [saga_events], with the columns that [saveEvent] fills; [id]
    and [created_at] are the position of the row in the table. *)
Module saga_events.
Record row : Type := mk {
  saga_id : string;
  order_id : string;
  state : string;
  data : GoMap;
  error : string
}.
End saga_events.

Abbreviation World := (World saga_events.row).
Abbreviation M := (M saga_events.row).

Definition saveEvent (event : SagaEvent.t) : M (option error) :=
  let* err := db_Exec (fun rows =>
      (rows ++ [saga_events.mk (SagaEvent.SagaID event) (SagaEvent.OrderID event)
                  (SagaEvent.State event) (SagaEvent.Data event)
                  (SagaEvent.Error event)])%list) in
  match err with
  | Some e => ret (Some e)
  | None =>
      let* _ := log_Printf ("Evento salvo: SAGA " +:+ SagaEvent.SagaID event
                            +:+ " -> " +:+ SagaEvent.State event) in
      ret None
  end.

(** [SELECT state FROM saga_events WHERE saga_id = $1
     ORDER BY created_at DESC LIMIT 1] *)
Definition latest_state (sagaID : string) (rows : list saga_events.row) : option string :=
  saga_events.state <$> last (filter (fun r => saga_events.saga_id r = sagaID) rows).

Definition getCurrentState (sagaID : string) : M (SagaState * option error) :=
  let* res := db_QueryRow (latest_state sagaID) in
  match res with
  | inr err => ret (StatePending, Some err)
  | inl state => ret (state, None)
  end.

Definition getOrderID (reply : Reply.t) : string :=
  match Reply.Data reply with
  | None => ""
  | Some _ =>
      match assertString (index (Reply.Data reply) "order_id") with
      | Some orderID => orderID
      | None => ""
      end
  end.

Definition sendCommand (topic : string) (cmd : Command.t) : M (option error) :=
  let msg := ProducerMessage.mk topic None (WCommand cmd) in
  let* err := producer_SendMessage msg in
  match err with
  | Some e => ret (Some e)
  | None =>
      let* _ := log_Printf ("Comando enviado para " +:+ topic +:+ ": "
                            +:+ Command.CommandType cmd) in
      ret None
  end.

Definition sendCompensation (topic sagaID commandType : string) : M (option error) :=
  let* id := generateID in
  let* now := time_Now in
  sendCommand topic (Command.mk id sagaID "" commandType None now).

Definition publishOrderProcessed (sagaID : string) (data : GoMap) : M (option error) :=
  let* now := time_Now in
  let* timestamp := Format_RFC3339 now in
  let event : gmap string Value :=
    <["saga_id" := VStr sagaID]>
    (<["order_id" := default VNull (index data "order_id")]>
    (<["status" := VStr "COMPLETED"]>
    (<["timestamp" := VStr timestamp]>
    (<["data" := from_option VObj VNull data]> ∅)))) in
  let msg := ProducerMessage.mk "pedido-saga-pedido-processado" None (WObject event) in
  let* err := producer_SendMessage msg in
  match err with
  | Some e => ret (Some e)
  | None =>
      let* _ := log_Printf ("Pedido processado publicado: SAGA " +:+ sagaID) in
      ret None
  end.

Definition startCompensation (sagaID : string) (currentState : SagaState)
    (errorMsg : string) : M (option error) :=
  let* _ := log_Printf ("Iniciando compensação para SAGA " +:+ sagaID
                        +:+ ". Motivo: " +:+ errorMsg) in
  let* now := time_Now in
  let event := SagaEvent.mk sagaID "" StateCompensating None now errorMsg in
  let* err := saveEvent event in
  match err with
  | Some e => ret (Some e)
  | None =>
      (* the three cases of the switch, each falling through to the next *)
      let caseOrderValidated : M unit :=
        let* _ := sendCompensation "pedidos-commands" sagaID "CANCEL_ORDER" in
        ret tt in
      let caseStockReserved : M unit :=
        let* _ := sendCompensation "estoque-commands" sagaID "RELEASE_STOCK" in
        caseOrderValidated in
      let casePaymentProcessed : M unit :=
        let* _ := sendCompensation "pagamentos-commands" sagaID "CANCEL_PAYMENT" in
        caseStockReserved in
      let* _ :=
        if String.eqb currentState StatePaymentProcessed then casePaymentProcessed
        else if String.eqb currentState StateStockReserved then caseStockReserved
        else if String.eqb currentState StateOrderValidated then caseOrderValidated
        else ret tt in
      let* now := time_Now in
      saveEvent (SagaEvent.mk sagaID "" StateFailed None now errorMsg)
  end.

(** The forward cases of the switch in [processReply]: build the next
    command, send it, and leave with the error when sending fails. *)
Definition forward (reply : Reply.t) (orderID : string) (nextState : SagaState)
    (commandType topic : string) : M (SagaState + error) :=
  let* id := generateID in
  let* now := time_Now in
  let nextCommand := Command.mk id (Reply.SagaID reply) orderID commandType
                       (Reply.Data reply) now in
  let* err := sendCommand topic nextCommand in
  match err with
  | Some e => ret (inr e)
  | None => ret (inl nextState)
  end.

Definition processReply (topic : string) (reply : Reply.t) : M (option error) :=
  let* '(currentState, err) := getCurrentState (Reply.SagaID reply) in
  match err with
  | Some e => ret (Some e)
  | None =>
      let* _ := log_Printf ("Estado atual da SAGA " +:+ Reply.SagaID reply
                            +:+ ": " +:+ currentState) in
      if negb (Reply.Success reply)
      then startCompensation (Reply.SagaID reply) currentState (Reply.Message reply)
      else
        let orderID := getOrderID reply in
        let* switch :=
          if String.eqb topic "pedidos-reply"
          then forward reply orderID StateOrderValidated "RESERVE_STOCK" "estoque-commands"
          else if String.eqb topic "estoque-reply"
          then forward reply orderID StateStockReserved "PROCESS_PAYMENT" "pagamentos-commands"
          else if String.eqb topic "pagamentos-reply"
          then forward reply orderID StatePaymentProcessed "SCHEDULE_DELIVERY" "entregas-commands"
          else if String.eqb topic "entregas-reply"
          then
            let* _ := log_Printf ("SAGA " +:+ Reply.SagaID reply
                                  +:+ " concluída com sucesso!") in
            let* err := publishOrderProcessed (Reply.SagaID reply) (Reply.Data reply) in
            let* _ := match err with
                      | Some e => log_Printf ("Erro ao publicar pedido processado: "
                                              +:+ err_Error e)
                      | None => ret tt
                      end in
            ret (inl StateCompleted)
          else ret (inl "") (* no case: nextState keeps its zero value *) in
        match switch with
        | inr e => ret (Some e)
        | inl nextState =>
            let* now := time_Now in
            saveEvent (SagaEvent.mk (Reply.SagaID reply) orderID nextState
                         (Reply.Data reply) now "")
        end
  end.

Definition startNewSaga (data : Wire) : M (option error) :=
  match json_Unmarshal_map data with
  | inr err => ret (Some err)
  | inl orderData =>
      let* sagaID := generateID in
      let* '(orderID, orderData) :=
        match assertString (orderData !! "order_id") with
        | Some orderID => ret (orderID, orderData)
        | None =>
            let* orderID := generateID in
            ret (orderID, <["order_id" := VStr orderID]> orderData)
        end in
      let* _ := log_Printf ("Iniciando nova SAGA: " +:+ sagaID
                            +:+ " para pedido: " +:+ orderID) in
      let* now := time_Now in
      let event := SagaEvent.mk sagaID orderID StatePending (Some orderData) now "" in
      let* err := saveEvent event in
      match err with
      | Some e => ret (Some e)
      | None =>
          let* id := generateID in
          let* now := time_Now in
          sendCommand "pedidos-commands"
            (Command.mk id sagaID orderID "VALIDATE_ORDER" (Some orderData) now)
      end
  end.

(** The body of the loop of [ConsumerHandler.ConsumeClaim]. *)
Definition consumeMessage (message : ConsumerMessage.t) : M unit :=
  let topic := ConsumerMessage.Topic message in
  if String.eqb topic "pedido-saga-pedido-processar"
  then
    let* err := startNewSaga (ConsumerMessage.Value message) in
    let* _ := match err with
              | Some e => log_Printf ("Erro ao iniciar SAGA: " +:+ err_Error e)
              | None => ret tt
              end in
    session_MarkMessage message
  else
    match json_Unmarshal_Reply (ConsumerMessage.Value message) with
    | inr err =>
        let* _ := log_Printf ("Erro ao deserializar reply: " +:+ err_Error err) in
        session_MarkMessage message
    | inl reply =>
        let* _ := log_Printf ("Reply recebido: " +:+ topic +:+ " - Success: "
                              +:+ fmt_bool (Reply.Success reply) +:+ " - Message: "
                              +:+ Reply.Message reply) in
        let* err := processReply topic reply in
        let* _ := match err with
                  | Some e => log_Printf ("Erro ao processar reply: " +:+ err_Error e)
                  | None => ret tt
                  end in
        session_MarkMessage message
    end.

Definition ConsumeClaim (claim : list ConsumerMessage.t) : M (option error) :=
  let* _ := range consumeMessage claim in
  ret None.

End Orquestrador.

(** ** The participants

    The four participants share the shape of their consumer loop and of
    [sendReply]; only the reply topic and [processCommand] differ.
    Column constraints ([VARCHAR] lengths, [DECIMAL] precision) are not
    modelled: a statement fails only through the fault schedule. *)

Section Participant.
Context {Row : Type}.

(** [sendReply] of a participant that answers on [replyTopic]. *)
Definition sendReplyOn (replyTopic : string) (reply : Reply.t) : M Row (option error) :=
  let msg := ProducerMessage.mk replyTopic None (WReply reply) in
  producer_SendMessage msg.

(** The body of the loop of a participant's [ConsumeClaim]. *)
Definition consumeCommand (processCommand : Command.t -> M Row Reply.t)
    (sendReply : Reply.t -> M Row (option error))
    (message : ConsumerMessage.t) : M Row unit :=
  match json_Unmarshal_Command (ConsumerMessage.Value message) with
  | inr _ => session_MarkMessage message
  | inl cmd =>
      let* reply := processCommand cmd in
      let* _ := sendReply reply in
      session_MarkMessage message
  end.

(** The copy loop [for k, v := range cmd.Payload { reply.Data[k] = v }],
    guarded by [cmd.Payload != nil]. *)
Definition copyPayload (payload : GoMap) (data : gmap string Value) : gmap string Value :=
  match payload with
  | Some entries => entries ∪ data
  | None => data
  end.

End Participant.

(** *** [pedidos/main.go] *)

Module Pedidos.

Module Order.
Record t : Type := mk {
  ID : string;
  SagaID : string;
  CustomerID : string;
  ProductID : string;
  Quantity : Z;
  TotalAmount : Q;
  Status : string;
  CreatedAt : time_Time
}.
End Order.

(** A row of [orders]. *)
Module orders.
Record row : Type := mk {
  id : string;
  saga_id : string;
  customer_id : string;
  product_id : string;
  quantity : Z;
  total_amount : Q;
  status : string
}.
End orders.

Abbreviation World := (World orders.row).
Abbreviation M := (M orders.row).

Definition validateOrder (cmd : Command.t) : M (option Order.t) :=
  let* id := generateID in
  let* now := time_Now in
  let order := Order.mk id (Command.SagaID cmd)
      (getStringFromPayload (Command.Payload cmd) "customer_id" "CUST-001")
      (getStringFromPayload (Command.Payload cmd) "product_id" "PROD-001")
      (getIntFromPayload (Command.Payload cmd) "quantity" 1)
      (getFloatFromPayload (Command.Payload cmd) "total_amount" 100)
      "VALIDATED" now in
  let* err := db_Exec (fun rows =>
      (rows ++ [orders.mk (Order.ID order) (Order.SagaID order)
                  (Order.CustomerID order) (Order.ProductID order)
                  (Order.Quantity order) (Order.TotalAmount order)
                  (Order.Status order)])%list) in
  match err with
  | Some _ => ret None
  | None => ret (Some order)
  end.

(** [UPDATE orders SET status = 'CANCELLED' WHERE saga_id = $1] *)
Definition cancelOrder (sagaID : string) : M (option error) :=
  db_Exec (map (fun r =>
    if String.eqb (orders.saga_id r) sagaID
    then orders.mk (orders.id r) (orders.saga_id r) (orders.customer_id r)
           (orders.product_id r) (orders.quantity r) (orders.total_amount r)
           "CANCELLED"
    else r)).

Definition processCommand (cmd : Command.t) : M Reply.t :=
  let* replyID := generateID in
  let* now := time_Now in
  let reply (success : bool) (message : string) (data : gmap string Value) :=
    Reply.mk replyID (Command.CommandID cmd) (Command.SagaID cmd)
      success message (Some data) now in
  if String.eqb (Command.CommandType cmd) "VALIDATE_ORDER" then
    let* order := validateOrder cmd in
    match order with
    | Some order =>
        ret (reply true "Pedido validado com sucesso"
               (<["total_amount" := VNum (Order.TotalAmount order)]>
               (<["quantity" := VInt (Order.Quantity order)]>
               (<["product_id" := VStr (Order.ProductID order)]>
               (<["customer_id" := VStr (Order.CustomerID order)]>
               (<["order_id" := VStr (Order.ID order)]> ∅))))))
    | None => ret (reply false "Falha ao validar pedido" ∅)
    end
  else if String.eqb (Command.CommandType cmd) "CANCEL_ORDER" then
    let* err := cancelOrder (Command.SagaID cmd) in
    match err with
    | Some e => ret (reply false ("Erro ao cancelar pedido: " +:+ err_Error e) ∅)
    | None => ret (reply true "Pedido cancelado com sucesso" ∅)
    end
  else
    ret (reply false ("Comando desconhecido: " +:+ Command.CommandType cmd) ∅).

Definition sendReply : Reply.t -> M (option error) := sendReplyOn "pedidos-reply".

Definition consumeMessage : ConsumerMessage.t -> M unit :=
  consumeCommand processCommand sendReply.

Definition ConsumeClaim (claim : list ConsumerMessage.t) : M (option error) :=
  let* _ := range consumeMessage claim in
  ret None.

End Pedidos.

(** *** [estoque/main.go] *)

Module Estoque.

Module StockReservation.
Record t : Type := mk {
  ID : string;
  SagaID : string;
  ProductID : string;
  Quantity : Z;
  Status : string;
  CreatedAt : time_Time
}.
End StockReservation.

(** A row of [stock_reservations]. *)
Module stock_reservations.
Record row : Type := mk {
  id : string;
  saga_id : string;
  product_id : string;
  quantity : Z;
  status : string
}.
End stock_reservations.

Abbreviation World := (World stock_reservations.row).
Abbreviation M := (M stock_reservations.row).

Definition reserveStock (cmd : Command.t) : M (option StockReservation.t) :=
  let* draw := rand_Intn_100 in
  if (draw <? 10)%Z then ret None
  else
    let* id := generateID in
    let* now := time_Now in
    let reservation := StockReservation.mk id (Command.SagaID cmd)
        (getStringFromPayload (Command.Payload cmd) "product_id" "PROD-001")
        (getIntFromPayload (Command.Payload cmd) "quantity" 1)
        "RESERVED" now in
    let* err := db_Exec (fun rows =>
        (rows ++ [stock_reservations.mk (StockReservation.ID reservation)
                    (StockReservation.SagaID reservation)
                    (StockReservation.ProductID reservation)
                    (StockReservation.Quantity reservation)
                    (StockReservation.Status reservation)])%list) in
    match err with
    | Some _ => ret None
    | None => ret (Some reservation)
    end.

(** [UPDATE stock_reservations SET status = 'RELEASED' WHERE saga_id = $1] *)
Definition releaseStock (sagaID : string) : M (option error) :=
  db_Exec (map (fun r =>
    if String.eqb (stock_reservations.saga_id r) sagaID
    then stock_reservations.mk (stock_reservations.id r)
           (stock_reservations.saga_id r) (stock_reservations.product_id r)
           (stock_reservations.quantity r) "RELEASED"
    else r)).

Definition processCommand (cmd : Command.t) : M Reply.t :=
  let* replyID := generateID in
  let* now := time_Now in
  let data := copyPayload (Command.Payload cmd) ∅ in
  let reply (success : bool) (message : string) (data : gmap string Value) :=
    Reply.mk replyID (Command.CommandID cmd) (Command.SagaID cmd)
      success message (Some data) now in
  if String.eqb (Command.CommandType cmd) "RESERVE_STOCK" then
    let* reservation := reserveStock cmd in
    match reservation with
    | Some reservation =>
        ret (reply true "Estoque reservado com sucesso"
               (<["reservation_id" := VStr (StockReservation.ID reservation)]> data))
    | None => ret (reply false "Estoque insuficiente" data)
    end
  else if String.eqb (Command.CommandType cmd) "RELEASE_STOCK" then
    let* err := releaseStock (Command.SagaID cmd) in
    match err with
    | Some e => ret (reply false ("Erro ao liberar estoque: " +:+ err_Error e) data)
    | None => ret (reply true "Estoque liberado com sucesso" data)
    end
  else
    ret (reply false ("Comando desconhecido: " +:+ Command.CommandType cmd) data).

Definition sendReply : Reply.t -> M (option error) := sendReplyOn "estoque-reply".

Definition consumeMessage : ConsumerMessage.t -> M unit :=
  consumeCommand processCommand sendReply.

Definition ConsumeClaim (claim : list ConsumerMessage.t) : M (option error) :=
  let* _ := range consumeMessage claim in
  ret None.

End Estoque.

(** [t.Unix()] of a time kept as its [UnixNano]. *)
Definition Unix (t : time_Time) : Z := (t / 1000000000)%Z.

(** [t.Add(48 * time.Hour)] *)
Definition Add_48h (t : time_Time) : time_Time := (t + 48 * 3600 * 1000000000)%Z.

(** *** [pagamentos/main.go] *)

Module Pagamentos.

Module Payment.
Record t : Type := mk {
  ID : string;
  SagaID : string;
  OrderID : string;
  Amount : Q;
  Status : string;
  TransactionID : string;
  CreatedAt : time_Time
}.
End Payment.

(** A row of [payments]. *)
Module payments.
Record row : Type := mk {
  id : string;
  saga_id : string;
  order_id : string;
  amount : Q;
  status : string;
  transaction_id : string
}.
End payments.

Abbreviation World := (World payments.row).
Abbreviation M := (M payments.row).

Definition processPayment (cmd : Command.t) : M (option Payment.t) :=
  let* draw := rand_Intn_100 in
  if (draw <? 5)%Z then ret None
  else
    let* id := generateID in
    let* txnTime := time_Now in
    let* now := time_Now in
    let payment := Payment.mk id (Command.SagaID cmd)
        (getStringFromPayload (Command.Payload cmd) "order_id" "")
        (getFloatFromPayload (Command.Payload cmd) "total_amount" 0)
        "APPROVED" ("TXN-" +:+ pretty (Unix txnTime)) now in
    let* err := db_Exec (fun rows =>
        (rows ++ [payments.mk (Payment.ID payment) (Payment.SagaID payment)
                    (Payment.OrderID payment) (Payment.Amount payment)
                    (Payment.Status payment) (Payment.TransactionID payment)])%list) in
    match err with
    | Some _ => ret None
    | None => ret (Some payment)
    end.

(** [UPDATE payments SET status = 'CANCELLED' WHERE saga_id = $1] *)
Definition cancelPayment (sagaID : string) : M (option error) :=
  db_Exec (map (fun r =>
    if String.eqb (payments.saga_id r) sagaID
    then payments.mk (payments.id r) (payments.saga_id r) (payments.order_id r)
           (payments.amount r) "CANCELLED" (payments.transaction_id r)
    else r)).

Definition processCommand (cmd : Command.t) : M Reply.t :=
  let* replyID := generateID in
  let* now := time_Now in
  let data := copyPayload (Command.Payload cmd) ∅ in
  let reply (success : bool) (message : string) (data : gmap string Value) :=
    Reply.mk replyID (Command.CommandID cmd) (Command.SagaID cmd)
      success message (Some data) now in
  if String.eqb (Command.CommandType cmd) "PROCESS_PAYMENT" then
    let* payment := processPayment cmd in
    match payment with
    | Some payment =>
        ret (reply true "Pagamento processado com sucesso"
               (<["transaction_id" := VStr (Payment.TransactionID payment)]>
               (<["payment_id" := VStr (Payment.ID payment)]> data)))
    | None => ret (reply false "Falha no processamento do pagamento" data)
    end
  else if String.eqb (Command.CommandType cmd) "CANCEL_PAYMENT" then
    let* err := cancelPayment (Command.SagaID cmd) in
    match err with
    | Some e => ret (reply false ("Erro ao cancelar pagamento: " +:+ err_Error e) data)
    | None => ret (reply true "Pagamento cancelado com sucesso" data)
    end
  else
    ret (reply false ("Comando desconhecido: " +:+ Command.CommandType cmd) data).

Definition sendReply : Reply.t -> M (option error) := sendReplyOn "pagamentos-reply".

Definition consumeMessage : ConsumerMessage.t -> M unit :=
  consumeCommand processCommand sendReply.

Definition ConsumeClaim (claim : list ConsumerMessage.t) : M (option error) :=
  let* _ := range consumeMessage claim in
  ret None.

End Pagamentos.

(** *** [entregas/main.go] *)

Module Entregas.

Module Delivery.
Record t : Type := mk {
  ID : string;
  SagaID : string;
  OrderID : string;
  Address : string;
  ScheduledDate : time_Time;
  Status : string;
  TrackingNumber : string;
  CreatedAt : time_Time
}.
End Delivery.

(** A row of [deliveries]. *)
Module deliveries.
Record row : Type := mk {
  id : string;
  saga_id : string;
  order_id : string;
  address : string;
  scheduled_date : time_Time;
  status : string;
  tracking_number : string
}.
End deliveries.

Abbreviation World := (World deliveries.row).
Abbreviation M := (M deliveries.row).

Definition scheduleDelivery (cmd : Command.t) : M (option Delivery.t) :=
  let* start := time_Now in
  let scheduledDate := Add_48h start in
  let* id := generateID in
  let* trkTime := time_Now in
  let* now := time_Now in
  let delivery := Delivery.mk id (Command.SagaID cmd)
      (getStringFromPayload (Command.Payload cmd) "order_id" "")
      (getStringFromPayload (Command.Payload cmd) "address" "Rua Exemplo, 123")
      scheduledDate "SCHEDULED" ("TRK-" +:+ pretty (Unix trkTime)) now in
  let* err := db_Exec (fun rows =>
      (rows ++ [deliveries.mk (Delivery.ID delivery) (Delivery.SagaID delivery)
                  (Delivery.OrderID delivery) (Delivery.Address delivery)
                  (Delivery.ScheduledDate delivery) (Delivery.Status delivery)
                  (Delivery.TrackingNumber delivery)])%list) in
  match err with
  | Some _ => ret None
  | None => ret (Some delivery)
  end.

(** [UPDATE deliveries SET status = 'CANCELLED' WHERE saga_id = $1] *)
Definition cancelDelivery (sagaID : string) : M (option error) :=
  db_Exec (map (fun r =>
    if String.eqb (deliveries.saga_id r) sagaID
    then deliveries.mk (deliveries.id r) (deliveries.saga_id r)
           (deliveries.order_id r) (deliveries.address r)
           (deliveries.scheduled_date r) "CANCELLED" (deliveries.tracking_number r)
    else r)).

Definition processCommand (cmd : Command.t) : M Reply.t :=
  let* replyID := generateID in
  let* now := time_Now in
  let data := copyPayload (Command.Payload cmd) ∅ in
  let reply (success : bool) (message : string) (data : gmap string Value) :=
    Reply.mk replyID (Command.CommandID cmd) (Command.SagaID cmd)
      success message (Some data) now in
  if String.eqb (Command.CommandType cmd) "SCHEDULE_DELIVERY" then
    let* delivery := scheduleDelivery cmd in
    match delivery with
    | Some delivery =>
        let* scheduled := Format_RFC3339 (Delivery.ScheduledDate delivery) in
        ret (reply true "Entrega agendada com sucesso"
               (<["scheduled_date" := VStr scheduled]>
               (<["tracking_number" := VStr (Delivery.TrackingNumber delivery)]>
               (<["delivery_id" := VStr (Delivery.ID delivery)]> data))))
    | None => ret (reply false "Falha ao agendar entrega" data)
    end
  else if String.eqb (Command.CommandType cmd) "CANCEL_DELIVERY" then
    let* err := cancelDelivery (Command.SagaID cmd) in
    match err with
    | Some e => ret (reply false ("Erro ao cancelar entrega: " +:+ err_Error e) data)
    | None => ret (reply true "Entrega cancelada com sucesso" data)
    end
  else
    ret (reply false ("Comando desconhecido: " +:+ Command.CommandType cmd) data).

Definition sendReply : Reply.t -> M (option error) := sendReplyOn "entregas-reply".

Definition consumeMessage : ConsumerMessage.t -> M unit :=
  consumeCommand processCommand sendReply.

Definition ConsumeClaim (claim : list ConsumerMessage.t) : M (option error) :=
  let* _ := range consumeMessage claim in
  ret None.

End Entregas.

(** ** The simulator's producer ([simulador/main.go]) *)

Module Simulador.

(** The message [sendOrderToProcess] hands to the producer. *)
Definition sendOrderToProcess (orderData : gmap string Value) : ProducerMessage.t :=
  ProducerMessage.mk "pedido-saga-pedido-processar" None (WObject orderData).

End Simulador.

(** ** The five processes around one broker *)

(** The broker's log holds every accepted message in publish order; a
    consumer group receives the message at an offset when the schedule
    names that offset, and an offset named twice is a redelivery. *)
Record Cluster : Type := mkCluster {
  orquestrador : Orquestrador.World;
  pedidos : Pedidos.World;
  estoque : Estoque.World;
  pagamentos : Pagamentos.World;
  entregas : Entregas.World;
  broker : list ProducerMessage.t
}.

Definition toConsumer (msg : ProducerMessage.t) : ConsumerMessage.t :=
  ConsumerMessage.mk (ProducerMessage.Topic msg) (ProducerMessage.Key msg)
    (ProducerMessage.Value msg).

(** What a process published while it handled one message. *)
Definition published {Row : Type} (before after : World Row)
    : list ProducerMessage.t :=
  drop (length (sent before)) (sent after).

(** The topics each consumer group subscribes to. *)
Definition orquestrador_topics : list string :=
  ["pedido-saga-pedido-processar"; "pedidos-reply"; "estoque-reply";
   "pagamentos-reply"; "entregas-reply"].

Definition subscribed (topics : list string) (topic : string) : bool :=
  existsb (String.eqb topic) topics.

(** Hand the message at [offset] to the group that subscribes to its topic. *)
Definition deliver (offset : nat) (c : Cluster) : Cluster :=
  match broker c !! offset with
  | None => c
  | Some msg =>
      let topic := ProducerMessage.Topic msg in
      let message := toConsumer msg in
      if subscribed orquestrador_topics topic then
        let w := (Orquestrador.ConsumeClaim [message] (orquestrador c)).2 in
        mkCluster w (pedidos c) (estoque c) (pagamentos c) (entregas c)
          (broker c ++ published (orquestrador c) w)
      else if subscribed ["pedidos-commands"] topic then
        let w := (Pedidos.ConsumeClaim [message] (pedidos c)).2 in
        mkCluster (orquestrador c) w (estoque c) (pagamentos c) (entregas c)
          (broker c ++ published (pedidos c) w)
      else if subscribed ["estoque-commands"] topic then
        let w := (Estoque.ConsumeClaim [message] (estoque c)).2 in
        mkCluster (orquestrador c) (pedidos c) w (pagamentos c) (entregas c)
          (broker c ++ published (estoque c) w)
      else if subscribed ["pagamentos-commands"] topic then
        let w := (Pagamentos.ConsumeClaim [message] (pagamentos c)).2 in
        mkCluster (orquestrador c) (pedidos c) (estoque c) w (entregas c)
          (broker c ++ published (pagamentos c) w)
      else if subscribed ["entregas-commands"] topic then
        let w := (Entregas.ConsumeClaim [message] (entregas c)).2 in
        mkCluster (orquestrador c) (pedidos c) (estoque c) (pagamentos c) w
          (broker c ++ published (entregas c) w)
      else c
  end.

Definition run (schedule : list nat) (c : Cluster) : Cluster :=
  foldl (fun c offset => deliver offset c) c schedule.

(** A process at start-up: empty table, nothing sent, no faults to come. *)
Definition boot {Row : Type} (clock : nat -> time_Time)
    (rfc3339 : time_Time -> string) (rand : nat -> Z) : World Row :=
  mkWorld clock 0 rfc3339 rand 0 [] [] [] [] [] [].

(** The cluster after the simulator published one order. *)
Definition submit (o : Orquestrador.World) (p : Pedidos.World) (e : Estoque.World)
    (pg : Pagamentos.World) (en : Entregas.World)
    (orderData : gmap string Value) : Cluster :=
  mkCluster o p e pg en [Simulador.sendOrderToProcess orderData].

(** The states of the events of a saga, oldest first. *)
Definition history (sagaID : string) (rows : list Orquestrador.saga_events.row)
    : list string :=
  Orquestrador.saga_events.state <$>
    filter (fun r => Orquestrador.saga_events.saga_id r = sagaID) rows.

(** The command types published on a topic, oldest first. *)
Definition commandTypes (msgs : list ProducerMessage.t) : list (string * string) :=
  omap (fun msg =>
          match ProducerMessage.Value msg with
          | WCommand cmd => Some (ProducerMessage.Topic msg, Command.CommandType cmd)
          | _ => None
          end) msgs.


(** ** Start-up of the orchestrator ([connectDB], [getEnv])

    The participants start the same way, with their own default
    database name. *)

Module Startup.

(** The process environment and the database server as [connectDB]
    meets them. *)
Record Host : Type := mkHost {
  environ : string -> string;          (* os.Getenv: empty when the variable is not set *)
  sql_Open : string -> option string;  (* sql.Open("postgres", dsn): the error text, if any *)
  pings : list bool;                   (* db.Ping calls to come: true = fails *)
  slept : Z;                           (* seconds spent in time.Sleep *)
  output : list string                 (* log lines, oldest first *)
}.

Definition getEnv (h : Host) (key defaultValue : string) : string :=
  if negb (String.eqb (environ h key) "") then environ h key else defaultValue.

(** The data source name [connectDB] builds. *)
Definition psqlInfo (h : Host) : string :=
  "host=" +:+ getEnv h "DB_HOST" "localhost"
  +:+ " port=" +:+ getEnv h "DB_PORT" "5432"
  +:+ " user=" +:+ getEnv h "DB_USER" "postgres"
  +:+ " password=" +:+ getEnv h "DB_PASSWORD" "postgres"
  +:+ " dbname=" +:+ getEnv h "DB_NAME" "orquestrador"
  +:+ " sslmode=disable".

(** [for i := 0; i < 30; i++ { ... }], entered with [remaining = 30 - i]
    rounds to go. *)
Fixpoint retry (remaining : nat) (i : Z) (db : string) (h : Host)
    : (string + string) * Host :=
  match remaining with
  | O => (inr "timeout ao conectar no banco", h)
  | S remaining =>
      let (fault, rest) := next_fault (pings h) in
      if fault
      then retry remaining (i + 1)%Z db
             (mkHost (environ h) (sql_Open h) rest (slept h + 2)%Z
                (output h ++ ["Aguardando banco de dados... (" +:+ pretty (i + 1)%Z
                              +:+ "/30)"]))
      else (inl db,
            mkHost (environ h) (sql_Open h) rest (slept h)
              (output h ++ ["Conectado ao banco de dados"]))
  end.

(** [connectDB]: the handle is known by its data source name; the
    result is the handle or the text of the error. *)
Definition connectDB (h : Host) : (string + string) * Host :=
  match sql_Open h (psqlInfo h) with
  | Some err => (inr err, h)
  | None => retry 30 0 (psqlInfo h) h
  end.

End Startup.

(** * Vocabulary of the statements *)

(** A process whose database and broker answer every call to come. *)
Definition healthy {Row : Type} (w : World Row) : Prop :=
  db_faults w = [] /\ bus_faults w = [].

(** The three append-only parts of a world are its messages sent, its
    messages marked and, for the orchestrator, its table.  [grows field P m]
    says that [m] only appends to [field], and only elements that
    satisfy [P]. *)
Definition grows {Row X A : Type} (field : World Row -> list X) (P : X -> Prop)
    (m : M Row A) : Prop :=
  forall w, exists xs, field (m w).2 = (field w ++ xs)%list /\ Forall P xs.

(** A message without a partition key. *)
Definition keyless (msg : ProducerMessage.t) : Prop :=
  ProducerMessage.Key msg = None.

(** A compensation command as [sendCompensation] fills it. *)
Definition bare_command (sagaID : string) (msg : ProducerMessage.t) : Prop :=
  exists cmd, ProducerMessage.Value msg = WCommand cmd /\
    Command.SagaID cmd = sagaID /\ Command.OrderID cmd = "" /\
    Command.Payload cmd = None.

(** An event of the failure path as [startCompensation] fills it. *)
Definition bare_event (sagaID errorMsg : string)
    (r : Orquestrador.saga_events.row) : Prop :=
  Orquestrador.saga_events.saga_id r = sagaID /\
  Orquestrador.saga_events.order_id r = "" /\
  Orquestrador.saga_events.data r = None /\
  Orquestrador.saga_events.error r = errorMsg /\
  (Orquestrador.saga_events.state r = Orquestrador.StateCompensating \/
   Orquestrador.saga_events.state r = Orquestrador.StateFailed).

(** The k-th compensation command that [startCompensation] sends from [w];
    [step] is its topic and its command type. *)
Definition compensation (w : Orquestrador.World) (sagaID : string) (k : nat)
    (step : string * string) : ProducerMessage.t :=
  ProducerMessage.mk step.1 None
    (WCommand (Command.mk (pretty (clock w (2 * k + 1 + ticks w))) sagaID ""
                 step.2 None (clock w (2 * k + 2 + ticks w)))).

(** The line [sendCommand] logs once the broker accepted the command. *)
Definition sent_line (step : string * string) : string :=
  "Comando enviado para " +:+ step.1 +:+ ": " +:+ step.2.

(** The forward cases of the switch in [processReply]:
    (reply topic, state recorded, command type, command topic). *)
Definition forward_steps : list (string * string * string * string) :=
  [("pedidos-reply", Orquestrador.StateOrderValidated,
    "RESERVE_STOCK", "estoque-commands");
   ("estoque-reply", Orquestrador.StateStockReserved,
    "PROCESS_PAYMENT", "pagamentos-commands");
   ("pagamentos-reply", Orquestrador.StatePaymentProcessed,
    "SCHEDULE_DELIVERY", "entregas-commands")].

(** The state each reply topic records, the last case of the switch included. *)
Definition recorded_states : list (string * string) :=
  [("pedidos-reply", Orquestrador.StateOrderValidated);
   ("estoque-reply", Orquestrador.StateStockReserved);
   ("pagamentos-reply", Orquestrador.StatePaymentProcessed);
   ("entregas-reply", Orquestrador.StateCompleted)].

(** The event [processReply] records for a successful reply. *)
Definition transition (reply : Reply.t) (nextState : string)
    : Orquestrador.saga_events.row :=
  Orquestrador.saga_events.mk (Reply.SagaID reply) (Orquestrador.getOrderID reply)
    nextState (Reply.Data reply) "".

(** The forward command [processReply] sends from [w] for a successful reply. *)
Definition next_command (w : Orquestrador.World) (reply : Reply.t)
    (commandType topic : string) : ProducerMessage.t :=
  ProducerMessage.mk topic None
    (WCommand (Command.mk (pretty (clock w (ticks w))) (Reply.SagaID reply)
                 (Orquestrador.getOrderID reply) commandType (Reply.Data reply)
                 (clock w (1 + ticks w)))).

(** ** A concrete run

    The order that the simulator's [sendSingleOrder] publishes, with the
    clocks of the five processes a millisecond apart.  No statement
    reads the formatted dates, so the formatter prints the instant. *)

Definition example_order : gmap string Value :=
  <["order_id" := VStr "1734516788000000000"]>
  (<["customer_id" := VStr "CUST-001"]>
  (<["product_id" := VStr "PROD-001"]>
  (<["quantity" := VNum 1]>
  (<["total_amount" := VNum (29999 # 100)]>
  (<["address" := VStr "Rua Exemplo, 123 - São Paulo/SP"]> ∅))))).

Definition example_clock (process : Z) (reading : nat) : time_Time :=
  (1734516789000000000 + process * 1000000 + Z.of_nat reading)%Z.

Definition example_boot {Row : Type} (process : Z) : World Row :=
  boot (example_clock process) pretty (fun _ => 50%Z).

Definition example_cluster : Cluster :=
  submit (example_boot 0) (example_boot 1) (example_boot 2) (example_boot 3)
    (example_boot 4) example_order.

(** The saga id the orchestrator gives to [example_order]. *)
Definition example_saga : string := "1734516789000000000".

(** Every message is delivered once, in publish order. *)
Definition happy_schedule : list nat := seq 0 9.

(** The orchestrator after the first reply reached it, with a database
    that answers the next query and fails the insert after it. *)
Definition insert_fails (w : Orquestrador.World) : Orquestrador.World :=
  mkWorld (clock w) (ticks w) (rfc3339 w) (rand w) (rolls w)
    [false; true] (table w) (bus_faults w) (sent w) (marked w) (logs w).

(** The topics on which participants answer. *)
Definition reply_topics : list string :=
  ["pedidos-reply"; "estoque-reply"; "pagamentos-reply"; "entregas-reply"].

(** The orchestrator once the stock is reserved for [example_order]. *)
Definition stock_reserved_world : Orquestrador.World :=
  orquestrador (run [0; 1; 2; 3; 4] example_cluster).

(** The reply of a payment service that refuses the payment of that saga. *)
Definition payment_refused : Reply.t :=
  Reply.mk "1734516789003000000" "1734516789000000008" example_saga false
    "Falha no processamento do pagamento" (Some ∅) 1734516789003000001%Z.

(** The stock service's reply in the run of [example_order]. *)
Definition stock_reply : Reply.t :=
  Reply.mk "1734516789002000000" "1734516789000000005" example_saga true
    "Estoque reservado com sucesso"
    (Some (<["reservation_id" := VStr "1734516789002000002"]>
          (<["total_amount" := VNum (29999 # 100)]>
          (<["quantity" := VInt 1]>
          (<["product_id" := VStr "PROD-001"]>
          (<["customer_id" := VStr "CUST-001"]>
          (<["order_id" := VStr "1734516789001000002"]> ∅)))))))
    1734516789002000001%Z.

(** The orchestrator once [example_order] is completed. *)
Definition completed_world : Orquestrador.World :=
  orquestrador (run happy_schedule example_cluster).

(** A reply for a saga the orchestrator never started. *)
Definition stray_reply : Reply.t :=
  Reply.mk "77" "78" "no-such-saga" true "Estoque reservado com sucesso"
    (Some ∅) 79%Z.

Definition stray_message : ConsumerMessage.t :=
  ConsumerMessage.mk "estoque-reply" None (WReply stray_reply).

(** What the decoder says of the bytes [{not json]. *)
Definition not_json : string :=
  "invalid character 'n' looking for beginning of object key string".


(** A message that is not a reply with [Success = false]. *)
Definition replied_success (msg : ProducerMessage.t) : Prop :=
  forall reply, ProducerMessage.Value msg = WReply reply -> Reply.Success reply = true.

(** The three participants once [example_order] is completed. *)
Definition completed_pedidos : Pedidos.World :=
  pedidos (run happy_schedule example_cluster).

Definition completed_estoque : Estoque.World :=
  estoque (run happy_schedule example_cluster).

Definition completed_pagamentos : Pagamentos.World :=
  pagamentos (run happy_schedule example_cluster).


(** The order service's reply in the run of [example_order], as the
    orchestrator receives it. *)
Definition order_reply : Reply.t :=
  Reply.mk "1734516789001000000" "1734516789000000002" example_saga true
    "Pedido validado com sucesso"
    (Some (<["total_amount" := VNum (29999 # 100)]>
          (<["quantity" := VInt 1]>
          (<["product_id" := VStr "PROD-001"]>
          (<["customer_id" := VStr "CUST-001"]>
          (<["order_id" := VStr "1734516789001000002"]> ∅))))))
    1734516789001000001%Z.

Definition order_reply_message : ConsumerMessage.t :=
  ConsumerMessage.mk "pedidos-reply" None (WReply order_reply).

(** The orchestrator that waits for that reply, with a database that
    answers the next query and fails the insert after it. *)
Definition insert_fails_world : Orquestrador.World :=
  insert_fails (orquestrador (run [0; 1] example_cluster)).

(** ** Vocabulary of the further properties *)

(** The topic on which orders enter. *)
Definition ingress_topic : string := "pedido-saga-pedido-processar".

(** The same process with other calls to fail. *)
Definition with_faults {Row : Type} (db bus : list bool) (w : World Row) : World Row :=
  mkWorld (clock w) (ticks w) (rfc3339 w) (rand w) (rolls w) db (table w) bus
    (sent w) (marked w) (logs w).

(** [yields P m]: whatever the world, the value [m] returns satisfies [P]. *)
Definition yields {Row A : Type} (P : A -> Prop) (m : M Row A) : Prop :=
  forall w, P (m w).1.

(** A state that the switch of [processReply] may hand to [saveEvent]. *)
Definition never_delivery_scheduled (r : string + error) : Prop :=
  match r with
  | inl nextState => nextState <> Orquestrador.StateDeliveryScheduled
  | inr _ => True
  end.

(** The envelope [publishOrderProcessed] publishes from [w] for [reply]. *)
Definition processed_event (w : Orquestrador.World) (reply : Reply.t)
    : gmap string Value :=
  <["saga_id" := VStr (Reply.SagaID reply)]>
  (<["order_id" := default VNull (index (Reply.Data reply) "order_id")]>
  (<["status" := VStr "COMPLETED"]>
  (<["timestamp" := VStr (rfc3339 w (clock w (ticks w)))]>
  (<["data" := from_option VObj VNull (Reply.Data reply)]> ∅)))).

(** The compensations [startCompensation] runs from a state, first to last. *)
Definition compensations (currentState : string) : list (string * string) :=
  if String.eqb currentState Orquestrador.StatePaymentProcessed
  then [("pagamentos-commands", "CANCEL_PAYMENT");
        ("estoque-commands", "RELEASE_STOCK");
        ("pedidos-commands", "CANCEL_ORDER")]
  else if String.eqb currentState Orquestrador.StateStockReserved
  then [("estoque-commands", "RELEASE_STOCK");
        ("pedidos-commands", "CANCEL_ORDER")]
  else if String.eqb currentState Orquestrador.StateOrderValidated
  then [("pedidos-commands", "CANCEL_ORDER")]
  else [].

(** The messages the broker accepts when they are sent one after another
    under a schedule of faults. *)
Fixpoint accepted (faults : list bool) (msgs : list ProducerMessage.t)
    : list ProducerMessage.t :=
  match msgs with
  | [] => []
  | msg :: rest =>
      if (next_fault faults).1 then accepted (next_fault faults).2 rest
      else msg :: accepted (next_fault faults).2 rest
  end.

(** The command types and the topic of the service that handles each. *)
Definition routes : list (string * string) :=
  [("pedidos-commands", "VALIDATE_ORDER"); ("pedidos-commands", "CANCEL_ORDER");
   ("estoque-commands", "RESERVE_STOCK"); ("estoque-commands", "RELEASE_STOCK");
   ("pagamentos-commands", "PROCESS_PAYMENT"); ("pagamentos-commands", "CANCEL_PAYMENT");
   ("entregas-commands", "SCHEDULE_DELIVERY")].

(** A command on the topic of the service that handles it, or the event
    of a completed order. *)
Definition routed (msg : ProducerMessage.t) : Prop :=
  match ProducerMessage.Value msg with
  | WCommand cmd => (ProducerMessage.Topic msg, Command.CommandType cmd) ∈ routes
  | WObject _ => ProducerMessage.Topic msg = "pedido-saga-pedido-processado"
  | _ => False
  end.

(** A reply that names the command it answers. *)
Definition answers (cmd : Command.t) (reply : Reply.t) : Prop :=
  Reply.CommandID reply = Command.CommandID cmd /\
  Reply.SagaID reply = Command.SagaID cmd.

(** What a participant that answers on [replyTopic] has sent once it
    handled a command from [w] with the reply [reply]. *)
Definition replied {Row : Type} (replyTopic : string) (reply : Reply.t)
    (w : World Row) : list ProducerMessage.t :=
  if (next_fault (bus_faults w)).1 then sent w
  else (sent w ++ [ProducerMessage.mk replyTopic None (WReply reply)])%list.

(** The entries of a payload; a nil map has none. *)
Definition entries (payload : GoMap) : gmap string Value := default ∅ payload.

(** The keys a participant adds to the data of its reply. *)
Definition stock_keys : list string := ["reservation_id"].

Definition payment_keys : list string := ["payment_id"; "transaction_id"].

Definition delivery_keys : list string :=
  ["delivery_id"; "tracking_number"; "scheduled_date"].

(** The data of [reply] has the entries of the payload of [cmd], but for
    the keys in [added]. *)
Definition passes_payload (added : list string) (cmd : Command.t)
    (reply : Reply.t) : Prop :=
  forall key, key ∉ added ->
    index (Reply.Data reply) key = index (Command.Payload cmd) key.

(** A statement that keeps the number of rows and leaves every row of
    another saga where it is. *)
Definition spares_other_sagas {Row : Type} (saga_id : Row -> string)
    (sagaID : string) (before after : list Row) : Prop :=
  length after = length before /\
  forall i r, before !! i = Some r -> saga_id r <> sagaID -> after !! i = Some r.

(** *** What the tables of the order and of the stock service take
    ([initSchema] of [pedidos/main.go] and of [estoque/main.go]) *)

(** [VARCHAR(n)]: a string of at most [n] characters, here of at most
    [n] bytes, without a NUL. *)
Definition varchar (n : nat) (s : string) : bool :=
  (String.length s <=? n)%nat &&
  forallb (fun c => negb (Ascii.eqb c Ascii.zero)) (String.list_ascii_of_string s).

(** [INTEGER] *)
Definition integer (n : Z) : bool :=
  (-2147483648 <=? n)%Z && (n <=? 2147483647)%Z.

(** [DECIMAL(10,2)], for a number that is stored as it is: at most two
    decimals and eight digits before them. *)
Definition decimal_10_2 (q : Q) : bool :=
  ((Qnum q * 100) mod Z.pos (Qden q) =? 0)%Z &&
  (Z.abs (Qnum q * 100 / Z.pos (Qden q)) <? 10000000000)%Z.

(** A value that is no number, or a number without a fraction. *)
Definition whole (v : option Value) : bool :=
  match assertFloat64 v with
  | Some q => (Qnum q mod Z.pos (Qden q) =? 0)%Z
  | None => true
  end.

(** [orders]: [id VARCHAR(100) PRIMARY KEY], [saga_id], [customer_id]
    and [product_id VARCHAR(100)], [quantity INTEGER],
    [total_amount DECIMAL(10,2)], [status VARCHAR(50)]. *)
Definition orders_accepts (rows : list Pedidos.orders.row)
    (r : Pedidos.orders.row) : bool :=
  forallb (fun r' => negb (String.eqb (Pedidos.orders.id r') (Pedidos.orders.id r)))
    rows &&
  varchar 100 (Pedidos.orders.id r) &&
  varchar 100 (Pedidos.orders.saga_id r) &&
  varchar 100 (Pedidos.orders.customer_id r) &&
  varchar 100 (Pedidos.orders.product_id r) &&
  integer (Pedidos.orders.quantity r) &&
  decimal_10_2 (Pedidos.orders.total_amount r) &&
  varchar 50 (Pedidos.orders.status r).

(** [stock_reservations]: [id VARCHAR(100) PRIMARY KEY], [saga_id] and
    [product_id VARCHAR(100)], [quantity INTEGER], [status VARCHAR(50)]. *)
Definition stock_reservations_accepts (rows : list Estoque.stock_reservations.row)
    (r : Estoque.stock_reservations.row) : bool :=
  forallb (fun r' => negb (String.eqb (Estoque.stock_reservations.id r')
                             (Estoque.stock_reservations.id r))) rows &&
  varchar 100 (Estoque.stock_reservations.id r) &&
  varchar 100 (Estoque.stock_reservations.saga_id r) &&
  varchar 100 (Estoque.stock_reservations.product_id r) &&
  integer (Estoque.stock_reservations.quantity r) &&
  varchar 50 (Estoque.stock_reservations.status r).

(** The order [validateOrder] builds for [cmd] from [w], its id read
    from the clock [reading] readings ahead. *)
Definition validated_order (w : Pedidos.World) (cmd : Command.t) (reading : nat)
    : Pedidos.orders.row :=
  Pedidos.orders.mk (pretty (clock w (reading + ticks w))) (Command.SagaID cmd)
    (getStringFromPayload (Command.Payload cmd) "customer_id" "CUST-001")
    (getStringFromPayload (Command.Payload cmd) "product_id" "PROD-001")
    (getIntFromPayload (Command.Payload cmd) "quantity" 1)
    (getFloatFromPayload (Command.Payload cmd) "total_amount" 100)
    "VALIDATED".

(** The line [connectDB] logs after the failed ping number [i]. *)
Definition waiting_line (i : nat) : string :=
  "Aguardando banco de dados... (" +:+ pretty (Z.of_nat i) +:+ "/30)".

(** ** Further inputs of the concrete run *)

(** The order of the simulator as the orchestrator receives it. *)
Definition example_ingress : ConsumerMessage.t :=
  toConsumer (Simulador.sendOrderToProcess example_order).

(** Bytes that are not JSON, on the ingress topic. *)
Definition malformed_order : ConsumerMessage.t :=
  ConsumerMessage.mk ingress_topic None (WInvalid not_json).

(** The orchestrator once the payment of [example_order] is processed. *)
Definition payment_processed_world : Orquestrador.World :=
  orquestrador (run (seq 0 8) example_cluster).

(** The delivery service's reply in the run of [example_order]. *)
Definition delivery_reply : Reply.t :=
  Reply.mk "1734516789004000000" "1734516789000000010" example_saga true
    "Entrega agendada com sucesso"
    (Some (<["scheduled_date" := VStr "1734689589004000002"]>
          (<["tracking_number" := VStr "TRK-1734516789"]>
          (<["delivery_id" := VStr "1734516789004000003"]>
          (<["transaction_id" := VStr "TXN-1734516789"]>
          (<["payment_id" := VStr "1734516789003000002"]>
          (<["reservation_id" := VStr "1734516789002000002"]>
          (<["total_amount" := VNum (29999 # 100)]>
          (<["quantity" := VInt 1]>
          (<["product_id" := VStr "PROD-001"]>
          (<["customer_id" := VStr "CUST-001"]>
          (<["order_id" := VStr "1734516789001000002"]> ∅))))))))))))
    1734516789004000001%Z.

(** The orchestrator after two orders entered, both sagas PENDING. *)
Definition two_sagas_world : Orquestrador.World :=
  orquestrador
    (run [0; 1]
       (mkCluster (example_boot 0) (example_boot 1) (example_boot 2)
          (example_boot 3) (example_boot 4)
          [Simulador.sendOrderToProcess example_order;
           Simulador.sendOrderToProcess example_order])).

(** The saga of the second of the two orders. *)
Definition second_saga : string := "1734516789000000004".

(** A command of the saga of [example_order] that carries the data of
    the order service's reply, as the orchestrator builds it. *)
Definition example_command (commandType : string) : Command.t :=
  Command.mk "1734516789000000004" example_saga "1734516789001000002" commandType
    (Reply.Data order_reply) 1734516789000000005%Z.

Definition example_command_message (topic commandType : string) : ConsumerMessage.t :=
  ConsumerMessage.mk topic None (WCommand (example_command commandType)).

(** The CANCEL_ORDER command the orchestrator sends when the payment of
    [example_order] is refused. *)
Definition cancel_order_command : Command.t :=
  Command.mk "1734516789000000013" example_saga "" "CANCEL_ORDER" None
    1734516789000000014%Z.

(** The orchestrator once the payment of [example_order] was refused. *)
Definition failed_world : Orquestrador.World :=
  (Orquestrador.processReply "pagamentos-reply" payment_refused stock_reserved_world).2.

(** A database that answers the third ping, and one that answers none
    of the first thirty-one. *)
Definition slow_database : Startup.Host :=
  Startup.mkHost (fun _ => "") (fun _ => None) [true; true; false] 0 [].

Definition absent_database : Startup.Host :=
  Startup.mkHost (fun _ => "") (fun _ => None) (replicate 31 true) 0 [].

(** Every message is delivered once, in publish order, on a run in which
    the stock service refuses the first reservation. *)
Definition revival_schedule : list nat := seq 0 13.

(** Draws that ask for a simulated failure the first time only. *)
Definition refuse_first (draw : nat) : Z :=
  match draw with
  | O => 5%Z
  | S _ => 50%Z
  end.

(** * Properties *)

(** ** Rules for [grows] *)

Section Grows.
Context {Row X : Type} (field : World Row -> list X) (P : X -> Prop).

Lemma grows_ret {A : Type} (a : A) : grows field P (ret a).
Proof. intros w. exists []. simpl. by rewrite app_nil_r. Qed.

Lemma grows_bind {A B : Type} (m : M Row A) (k : A -> M Row B) :
  grows field P m -> (forall a, grows field P (k a)) -> grows field P (bind m k).
Proof.
  intros Hm Hk w. unfold bind.
  destruct (Hm w) as (xs1 & Hfield1 & HP1).
  destruct (m w) as [a w1]. simpl in *.
  destruct (Hk a w1) as (xs2 & Hfield2 & HP2).
  exists (xs1 ++ xs2)%list.
  rewrite Hfield2, Hfield1, app_assoc. split; [reflexivity | by apply Forall_app].
Qed.

Lemma grows_still {A : Type} (m : M Row A) :
  (forall w, field (m w).2 = field w) -> grows field P m.
Proof. intros H w. exists []. by rewrite H, app_nil_r. Qed.

Lemma grows_range {A : Type} (body : A -> M Row unit) (messages : list A) :
  (forall message, grows field P (body message)) ->
  grows field P (range body messages).
Proof.
  intros Hbody. induction messages as [|message rest IH]; simpl.
  - apply grows_ret.
  - apply grows_bind; [apply Hbody | intros _; apply IH].
Qed.

End Grows.

Lemma grows_nothing {Row X A : Type} (field : World Row -> list X) (m : M Row A) :
  grows field (fun _ => False) m -> forall w, field (m w).2 = field w.
Proof.
  intros H w. destruct (H w) as (xs & -> & HF).
  destruct xs as [|x xs]; [by rewrite app_nil_r | by inversion HF].
Qed.

Lemma grows_SendMessage {Row : Type} (Q : ProducerMessage.t -> Prop)
    (msg : ProducerMessage.t) :
  Q msg -> grows (Row := Row) sent Q (producer_SendMessage msg).
Proof.
  intros HQ w. unfold producer_SendMessage.
  destruct (next_fault (bus_faults w)) as [[] rest]; simpl.
  - exists []. by rewrite app_nil_r.
  - exists [msg]. auto.
Qed.

Lemma grows_insert {Row : Type} (P : Row -> Prop) (r : Row) :
  P r -> grows table P (db_Exec (fun rows => (rows ++ [r])%list)).
Proof.
  intros HP w. unfold db_Exec.
  destruct (next_fault (db_faults w)) as [[] rest]; simpl.
  - exists []. by rewrite app_nil_r.
  - exists [r]. auto.
Qed.

(** A primitive that leaves the field alone. *)
Ltac grows_untouched :=
  apply grows_still; intros ?;
  cbv [time_Now generateID Format_RFC3339 rand_Intn_100 log_Printf db_Exec
       db_QueryRow producer_SendMessage session_MarkMessage bind ret];
  repeat case_match; reflexivity.

(** One step through the body of a handler, its definitions unfolded. *)
Ltac grows_step :=
  lazymatch goal with
  | |- grows _ _ (bind _ _) => apply grows_bind; [ | intros ? ]
  | |- grows _ _ (ret _) => apply grows_ret
  | |- grows _ _ (match ?x with _ => _ end) => destruct x
  | |- grows sent _ (producer_SendMessage _) => apply grows_SendMessage
  | |- grows table _ (db_Exec (fun rows => (rows ++ [_])%list)) => apply grows_insert
  | |- grows _ _ _ => grows_untouched
  end.

Ltac unfold_orquestrador :=
  unfold Orquestrador.consumeMessage, Orquestrador.startNewSaga,
    Orquestrador.processReply, Orquestrador.startCompensation,
    Orquestrador.forward, Orquestrador.publishOrderProcessed,
    Orquestrador.sendCompensation, Orquestrador.sendCommand,
    Orquestrador.saveEvent, Orquestrador.getCurrentState.

Ltac unfold_participants :=
  unfold Pedidos.consumeMessage, Estoque.consumeMessage,
    Pagamentos.consumeMessage, Entregas.consumeMessage, consumeCommand,
    Pedidos.sendReply, Estoque.sendReply, Pagamentos.sendReply,
    Entregas.sendReply, sendReplyOn,
    Pedidos.processCommand, Estoque.processCommand,
    Pagamentos.processCommand, Entregas.processCommand,
    Pedidos.validateOrder, Pedidos.cancelOrder,
    Estoque.reserveStock, Estoque.releaseStock,
    Pagamentos.processPayment, Pagamentos.cancelPayment,
    Entregas.scheduleDelivery, Entregas.cancelDelivery.

(** Evaluate a handler on a world given by its fields.  Identifiers, log
    lines and maps stay as written. *)
Ltac go_eval :=
  cbv -[pretty String.append app Z.add Z.mul Z.div Unix Add_48h Nat.add
        insert union empty lookup Orquestrador.latest_state].

(** ** Reading the current state *)

Section CurrentState.
Import Orquestrador.

Lemma getCurrentState_found (w : World) (sagaID S : string) :
  db_faults w = [] ->
  latest_state sagaID (table w) = Some S ->
  getCurrentState sagaID w = ((S, None), w).
Proof.
  intros Hdb Hlatest.
  destruct w as [clk tks fmt rnd rls dbf tbl busf snt mrk lgs]; simpl in *; subst.
  unfold getCurrentState, db_QueryRow, bind; simpl.
  by rewrite Hlatest.
Qed.

Lemma latest_state_snoc (sagaID : string) (rows : list saga_events.row)
    (r : saga_events.row) :
  saga_events.saga_id r = sagaID ->
  latest_state sagaID (rows ++ [r]) = Some (saga_events.state r).
Proof.
  intros Hid. unfold latest_state.
  rewrite filter_app, filter_cons_True, filter_nil by done.
  by rewrite last_snoc.
Qed.

Lemma latest_state_unknown (sagaID : string) (rows : list saga_events.row) :
  Forall (fun r => saga_events.saga_id r <> sagaID) rows ->
  latest_state sagaID rows = None.
Proof.
  intros Hnone. unfold latest_state.
  replace (filter _ rows) with (@nil saga_events.row); [done|].
  symmetry. induction Hnone as [|r rows Hr _ IH]; [done|].
  by rewrite filter_cons_False.
Qed.

Lemma getCurrentState_unknown (w : World) (sagaID : string) :
  Forall (fun r => saga_events.saga_id r <> sagaID) (table w) ->
  getCurrentState sagaID w =
    ((StatePending, Some (if (next_fault (db_faults w)).1 then ErrDB else ErrNoRows)),
     mkWorld (clock w) (ticks w) (rfc3339 w) (rand w) (rolls w)
       (next_fault (db_faults w)).2 (table w) (bus_faults w) (sent w)
       (marked w) (logs w)).
Proof.
  intros Hnone%latest_state_unknown.
  unfold getCurrentState, db_QueryRow, bind. rewrite Hnone.
  by destruct (next_fault (db_faults w)) as [[] rest].
Qed.

End CurrentState.

(** ** The failure path *)

Section FailurePath.
Import Orquestrador.

(** C1.  When the latest state of a saga is PAYMENT_PROCESSED,
    STOCK_RESERVED or ORDER_VALIDATED and the database and the broker
    answer, one call of [processReply] with a reply that has
    [Success = false] appends a COMPENSATING event, sends the
    compensations of the steps already done in reverse order
    (CANCEL_PAYMENT to pagamentos-commands, RELEASE_STOCK to
    estoque-commands, CANCEL_ORDER to pedidos-commands, starting at the
    step reached) and appends a FAILED event with the reply's message, in
    that order (the log lines), without reading any further message. *)
Theorem failure_compensates_in_reverse_order (w : World) (topic : string)
    (reply : Reply.t) (S : SagaState) (steps : list (string * string)) :
  healthy w ->
  latest_state (Reply.SagaID reply) (table w) = Some S ->
  Reply.Success reply = false ->
  (S = StatePaymentProcessed /\
     steps = [("pagamentos-commands", "CANCEL_PAYMENT");
              ("estoque-commands", "RELEASE_STOCK");
              ("pedidos-commands", "CANCEL_ORDER")]) \/
  (S = StateStockReserved /\
     steps = [("estoque-commands", "RELEASE_STOCK");
              ("pedidos-commands", "CANCEL_ORDER")]) \/
  (S = StateOrderValidated /\
     steps = [("pedidos-commands", "CANCEL_ORDER")]) ->
  exists w',
    processReply topic reply w = (None, w') /\
    table w' = (table w ++
      [saga_events.mk (Reply.SagaID reply) "" StateCompensating None
         (Reply.Message reply);
       saga_events.mk (Reply.SagaID reply) "" StateFailed None
         (Reply.Message reply)])%list /\
    sent w' = (sent w ++ imap (compensation w (Reply.SagaID reply)) steps)%list /\
    logs w' = (logs w ++
      ["Estado atual da SAGA " +:+ Reply.SagaID reply +:+ ": " +:+ S;
       "Iniciando compensação para SAGA " +:+ Reply.SagaID reply
         +:+ ". Motivo: " +:+ Reply.Message reply;
       "Evento salvo: SAGA " +:+ Reply.SagaID reply +:+ " -> " +:+ StateCompensating]
      ++ (sent_line <$> steps)
      ++ ["Evento salvo: SAGA " +:+ Reply.SagaID reply +:+ " -> " +:+ StateFailed])%list.
Proof.
  intros [Hdb Hbus] Hlatest Hfail Hsteps.
  unfold processReply, bind.
  rewrite (getCurrentState_found w _ S Hdb Hlatest).
  destruct w as [clk tks fmt rnd rls dbf tbl busf snt mrk lgs], reply.
  simpl in *; subst.
  destruct Hsteps as [[-> ->]|[[-> ->]|[-> ->]]]; go_eval.
  all: eexists; split; [reflexivity|].
  all: cbn [table sent logs]; repeat split; rewrite <- ?app_assoc; reflexivity.
Qed.

(** The same at the run of [example_order], the payment refused once the
    stock is reserved. *)
Lemma failure_compensates_in_reverse_order_witness :
  exists w',
    processReply "pagamentos-reply" payment_refused stock_reserved_world = (None, w') /\
    table w' = (table stock_reserved_world ++
      [saga_events.mk example_saga "" StateCompensating None
         "Falha no processamento do pagamento";
       saga_events.mk example_saga "" StateFailed None
         "Falha no processamento do pagamento"])%list /\
    sent w' = (sent stock_reserved_world ++
      imap (compensation stock_reserved_world example_saga)
        [("estoque-commands", "RELEASE_STOCK");
         ("pedidos-commands", "CANCEL_ORDER")])%list /\
    logs w' = (logs stock_reserved_world ++
      ["Estado atual da SAGA " +:+ example_saga +:+ ": " +:+ StateStockReserved;
       "Iniciando compensação para SAGA " +:+ example_saga
         +:+ ". Motivo: " +:+ "Falha no processamento do pagamento";
       "Evento salvo: SAGA " +:+ example_saga +:+ " -> " +:+ StateCompensating]
      ++ (sent_line <$> [("estoque-commands", "RELEASE_STOCK");
                         ("pedidos-commands", "CANCEL_ORDER")])
      ++ ["Evento salvo: SAGA " +:+ example_saga +:+ " -> " +:+ StateFailed])%list.
Proof.
  apply (failure_compensates_in_reverse_order stock_reserved_world
           "pagamentos-reply" payment_refused StateStockReserved).
  - split; reflexivity.
  - vm_compute; reflexivity.
  - reflexivity.
  - right; left; split; reflexivity.
Defined.

(** C10.  Whatever the state, the schedule of faults and the message,
    the events that [startCompensation] appends have an empty order id
    and no data, only the saga id and the error text, and the commands it
    sends have an empty order id and a nil payload. *)
Theorem compensation_carries_no_order_data (w : World)
    (sagaID currentState errorMsg : string) :
  exists rows msgs,
    table (startCompensation sagaID currentState errorMsg w).2 = (table w ++ rows)%list /\
    sent (startCompensation sagaID currentState errorMsg w).2 = (sent w ++ msgs)%list /\
    Forall (bare_event sagaID errorMsg) rows /\
    Forall (bare_command sagaID) msgs.
Proof.
  assert (Htable : grows table (bare_event sagaID errorMsg)
                     (startCompensation sagaID currentState errorMsg)).
  { unfold_orquestrador. repeat grows_step; unfold bare_event; simpl; auto 10. }
  assert (Hsent : grows sent (bare_command sagaID)
                    (startCompensation sagaID currentState errorMsg)).
  { unfold_orquestrador. repeat grows_step; eexists; simpl; eauto. }
  destruct (Htable w) as (rows & Hrows & HP), (Hsent w) as (msgs & Hmsgs & HQ).
  exists rows, msgs. auto.
Qed.

End FailurePath.

(** ** Replies that arrive late or twice *)

Section Replies.
Import Orquestrador.

(** For a successful reply on one of the three forward topics
    [processReply] reads the current state and then ignores it. *)
Lemma forward_reply_is_recorded (w : World) (reply : Reply.t) (S : SagaState)
    (topic : string) (nextState : SagaState) (commandType commandTopic : string) :
  healthy w ->
  latest_state (Reply.SagaID reply) (table w) = Some S ->
  Reply.Success reply = true ->
  (topic, nextState, commandType, commandTopic) ∈ forward_steps ->
  exists w',
    processReply topic reply w = (None, w') /\
    healthy w' /\ clock w' = clock w /\ ticks w' = (3 + ticks w)%nat /\
    table w' = (table w ++ [transition reply nextState])%list /\
    sent w' = (sent w ++ [next_command w reply commandType commandTopic])%list.
Proof.
  intros [Hdb Hbus] Hlatest Hok Hstep.
  unfold processReply, bind.
  rewrite (getCurrentState_found w _ S Hdb Hlatest).
  destruct w as [clk tks fmt rnd rls dbf tbl busf snt mrk lgs],
    reply as [? ? ? ? ? [data|] ?]; simpl in *; subst.
  all: unfold forward_steps in Hstep; rewrite !elem_of_cons, elem_of_nil in Hstep.
  all: destruct Hstep as [Hstep|[Hstep|[Hstep|[]]]]; injection Hstep as -> -> -> ->.
  all: go_eval; eexists; split; [reflexivity|].
  all: cbn [table sent clock ticks db_faults bus_faults]; repeat split; reflexivity.
Qed.

(** C2, as the spec states it, fails: the stock reply of the run of
    [example_order], delivered a second time at once (offset 4 twice) or
    after the payment was processed, is recorded again and sends
    PROCESS_PAYMENT again. *)
Lemma duplicate_stock_reply_is_recorded_twice :
  history example_saga (table (orquestrador (run [0; 1; 2; 3; 4; 4] example_cluster)))
    = [StatePending; StateOrderValidated; StateStockReserved; StateStockReserved] /\
  commandTypes (broker (run [0; 1; 2; 3; 4; 4] example_cluster))
    = [("pedidos-commands", "VALIDATE_ORDER"); ("estoque-commands", "RESERVE_STOCK");
       ("pagamentos-commands", "PROCESS_PAYMENT");
       ("pagamentos-commands", "PROCESS_PAYMENT")] /\
  history example_saga
    (table (orquestrador (run [0; 1; 2; 3; 4; 5; 6; 4] example_cluster)))
    = [StatePending; StateOrderValidated; StateStockReserved;
       StatePaymentProcessed; StateStockReserved] /\
  commandTypes (broker (run [0; 1; 2; 3; 4; 5; 6; 4] example_cluster))
    = [("pedidos-commands", "VALIDATE_ORDER"); ("estoque-commands", "RESERVE_STOCK");
       ("pagamentos-commands", "PROCESS_PAYMENT");
       ("entregas-commands", "SCHEDULE_DELIVERY");
       ("pagamentos-commands", "PROCESS_PAYMENT")].
Proof. vm_compute. repeat split; reflexivity. Qed.

(** C2, amended.  With the database and the broker answering, a
    successful reply on pedidos-reply, estoque-reply or pagamentos-reply
    is never discarded: whatever the current state of the saga,
    [processReply] appends the event of that topic and sends the next
    forward command, and the same reply processed once more appends the
    same event and sends the same command a second time. *)
Theorem reply_is_recorded_at_every_delivery (w : World) (reply : Reply.t)
    (S : SagaState) (topic : string) (nextState : SagaState)
    (commandType commandTopic : string) :
  healthy w ->
  latest_state (Reply.SagaID reply) (table w) = Some S ->
  Reply.Success reply = true ->
  (topic, nextState, commandType, commandTopic) ∈ forward_steps ->
  exists w1 w2,
    processReply topic reply w = (None, w1) /\
    processReply topic reply w1 = (None, w2) /\
    table w1 = (table w ++ [transition reply nextState])%list /\
    sent w1 = (sent w ++ [next_command w reply commandType commandTopic])%list /\
    table w2 = (table w ++ [transition reply nextState;
                            transition reply nextState])%list /\
    sent w2 = (sent w ++ [next_command w reply commandType commandTopic;
                          next_command w1 reply commandType commandTopic])%list.
Proof.
  intros Hw Hlatest Hok Hstep.
  destruct (forward_reply_is_recorded w reply S topic nextState commandType
              commandTopic Hw Hlatest Hok Hstep)
    as (w1 & Hrun1 & Hw1 & _ & _ & Htable1 & Hsent1).
  assert (Hlatest1 : latest_state (Reply.SagaID reply) (table w1) = Some nextState).
  { rewrite Htable1. by apply latest_state_snoc. }
  destruct (forward_reply_is_recorded w1 reply nextState topic nextState commandType
              commandTopic Hw1 Hlatest1 Hok Hstep)
    as (w2 & Hrun2 & _ & _ & _ & Htable2 & Hsent2).
  exists w1, w2. rewrite Htable2, Hsent2, Htable1, Hsent1, <- !app_assoc. auto 10.
Qed.

(** The same for the stock reply of [example_order], delivered to the
    orchestrator that has already recorded it. *)
Lemma reply_is_recorded_at_every_delivery_witness :
  exists w1 w2,
    processReply "estoque-reply" stock_reply stock_reserved_world = (None, w1) /\
    processReply "estoque-reply" stock_reply w1 = (None, w2) /\
    table w1 = (table stock_reserved_world
                  ++ [transition stock_reply StateStockReserved])%list /\
    sent w1 = (sent stock_reserved_world
                 ++ [next_command stock_reserved_world stock_reply
                       "PROCESS_PAYMENT" "pagamentos-commands"])%list /\
    table w2 = (table stock_reserved_world
                  ++ [transition stock_reply StateStockReserved;
                      transition stock_reply StateStockReserved])%list /\
    sent w2 = (sent stock_reserved_world
                 ++ [next_command stock_reserved_world stock_reply
                       "PROCESS_PAYMENT" "pagamentos-commands";
                     next_command w1 stock_reply
                       "PROCESS_PAYMENT" "pagamentos-commands"])%list.
Proof.
  apply (reply_is_recorded_at_every_delivery stock_reserved_world stock_reply
           StateStockReserved "estoque-reply" StateStockReserved
           "PROCESS_PAYMENT" "pagamentos-commands").
  - split; reflexivity.
  - vm_compute; reflexivity.
  - reflexivity.
  - unfold forward_steps. apply list_elem_of_further, list_elem_of_here.
Defined.

(** C3, as the spec states it, fails: once [example_order] is COMPLETED,
    the delivery reply (offset 8) delivered again appends a second
    COMPLETED event, and the stock reply (offset 4) delivered again
    appends STOCK_RESERVED after COMPLETED. *)
Lemma events_are_appended_after_completed :
  latest_state example_saga (table completed_world) = Some StateCompleted /\
  history example_saga
    (table (orquestrador (run (happy_schedule ++ [8]) example_cluster)))
    = [StatePending; StateOrderValidated; StateStockReserved;
       StatePaymentProcessed; StateCompleted; StateCompleted] /\
  history example_saga
    (table (orquestrador (run (happy_schedule ++ [4]) example_cluster)))
    = [StatePending; StateOrderValidated; StateStockReserved;
       StatePaymentProcessed; StateCompleted; StateStockReserved].
Proof. vm_compute. repeat split; reflexivity. Qed.

(** C3, amended.  [processReply] does not look whether the saga is
    terminal.  With the database and the broker answering, when the
    latest state is COMPLETED or FAILED a successful reply on a reply
    topic appends one event with the state of that topic, and a reply
    with [Success = false] appends a COMPENSATING and a FAILED event and
    sends no compensation. *)
Theorem terminal_saga_still_gets_events (w : World) (topic : string)
    (reply : Reply.t) (S : SagaState) :
  healthy w ->
  latest_state (Reply.SagaID reply) (table w) = Some S ->
  S = StateCompleted \/ S = StateFailed ->
  (Reply.Success reply = true ->
   forall nextState, (topic, nextState) ∈ recorded_states ->
     table (processReply topic reply w).2
       = (table w ++ [transition reply nextState])%list) /\
  (Reply.Success reply = false ->
     table (processReply topic reply w).2 = (table w ++
       [saga_events.mk (Reply.SagaID reply) "" StateCompensating None
          (Reply.Message reply);
        saga_events.mk (Reply.SagaID reply) "" StateFailed None
          (Reply.Message reply)])%list /\
     sent (processReply topic reply w).2 = sent w).
Proof.
  intros [Hdb Hbus] Hlatest HS.
  unfold processReply, bind.
  rewrite (getCurrentState_found w _ S Hdb Hlatest).
  destruct w as [clk tks fmt rnd rls dbf tbl busf snt mrk lgs],
    reply as [? ? ? ? ? [data|] ?]; simpl in *; subst.
  all: split; [intros -> nextState Hstep | intros ->].
  all: try (unfold recorded_states in Hstep;
            rewrite !elem_of_cons, elem_of_nil in Hstep;
            destruct Hstep as [Hstep|[Hstep|[Hstep|[Hstep|[]]]]];
            injection Hstep as -> ->).
  all: destruct HS as [-> | ->]; go_eval; rewrite <- ?app_assoc; auto.
Qed.

(** The same for the stock reply of [example_order], delivered after the
    saga is completed. *)
Lemma terminal_saga_still_gets_events_witness :
  (Reply.Success stock_reply = true ->
   forall nextState, ("estoque-reply", nextState) ∈ recorded_states ->
     table (processReply "estoque-reply" stock_reply completed_world).2
       = (table completed_world ++ [transition stock_reply nextState])%list) /\
  (Reply.Success stock_reply = false ->
     table (processReply "estoque-reply" stock_reply completed_world).2
       = (table completed_world ++
       [saga_events.mk (Reply.SagaID stock_reply) "" StateCompensating None
          (Reply.Message stock_reply);
        saga_events.mk (Reply.SagaID stock_reply) "" StateFailed None
          (Reply.Message stock_reply)])%list /\
     sent (processReply "estoque-reply" stock_reply completed_world).2
       = sent completed_world).
Proof.
  apply (terminal_saga_still_gets_events completed_world "estoque-reply"
           stock_reply StateCompleted).
  - split; reflexivity.
  - vm_compute; reflexivity.
  - left; reflexivity.
Defined.

End Replies.

(** ** Acknowledgement *)

Section Acknowledgement.
Import Orquestrador.

Lemma inner_handlers_mark_nothing :
  (forall data, grows marked (fun _ => False) (startNewSaga data)) /\
  (forall topic reply, grows marked (fun _ => False) (processReply topic reply)).
Proof. split; intros; unfold_orquestrador; repeat grows_step. Qed.

(** C5, as the spec states it, fails: the first reply of the run of
    [example_order] reaches an orchestrator whose insert into
    [saga_events] fails; [processReply] returns the database error and
    the message is marked all the same. *)
Lemma failed_event_write_is_acknowledged :
  toConsumer <$> broker (run [0; 1] example_cluster) !! 2 = Some order_reply_message /\
  (processReply "pedidos-reply" order_reply insert_fails_world).1 = Some ErrDB /\
  table (processReply "pedidos-reply" order_reply insert_fails_world).2
    = table insert_fails_world /\
  marked (consumeMessage order_reply_message insert_fails_world).2
    = (marked insert_fails_world ++ [order_reply_message])%list.
Proof. vm_compute. repeat split; reflexivity. Qed.

(** C5, amended.  The orchestrator acknowledges a reply whatever
    [processReply] returns: for every message on a reply topic whose
    body is a reply and for every schedule of faults of the database and
    of the broker, so also when processing fails with an event-log write
    error, the message is marked, and the broker does not deliver it
    again. *)
Theorem reply_is_acknowledged_whatever_the_outcome (w : World)
    (message : ConsumerMessage.t) (reply : Reply.t) :
  ConsumerMessage.Topic message ∈ reply_topics ->
  json_Unmarshal_Reply (ConsumerMessage.Value message) = inl reply ->
  marked (consumeMessage message w).2 = (marked w ++ [message])%list.
Proof.
  intros Htopic Hbody.
  destruct inner_handlers_mark_nothing as [_ Hreply].
  unfold reply_topics in Htopic; rewrite !elem_of_cons, elem_of_nil in Htopic.
  unfold consumeMessage. rewrite Hbody.
  destruct Htopic as [Htopic|[Htopic|[Htopic|[Htopic|[]]]]]; rewrite Htopic.
  all: unfold bind; simpl.
  all: match goal with
       | |- context [processReply ?t ?r ?w0] =>
           specialize (grows_nothing _ _ (Hreply t r) w0) as H;
           destruct (processReply t r w0) as [[e|] w1]
       end; simpl in *; by rewrite H.
Qed.

(** The same for the order reply of [example_order] at the orchestrator
    whose insert into [saga_events] fails. *)
Lemma reply_is_acknowledged_whatever_the_outcome_witness :
  let w := insert_fails_world in
  let message := order_reply_message in
  marked (consumeMessage message w).2 = (marked w ++ [message])%list.
Proof.
  intros w message.
  apply (reply_is_acknowledged_whatever_the_outcome w message order_reply).
  - unfold reply_topics. apply list_elem_of_here.
  - reflexivity.
Defined.

(** C7.  A reply on a reply topic that names a saga without events is
    acknowledged and dropped: [getCurrentState] fails (with
    [sql.ErrNoRows] when the database answers), the error is logged, no
    event is appended and no command is sent. *)
Theorem reply_for_unknown_saga_is_dropped (w : World) (message : ConsumerMessage.t)
    (reply : Reply.t) :
  ConsumerMessage.Topic message ∈ reply_topics ->
  json_Unmarshal_Reply (ConsumerMessage.Value message) = inl reply ->
  Forall (fun r => saga_events.saga_id r <> Reply.SagaID reply) (table w) ->
  exists e,
    (db_faults w = [] -> e = ErrNoRows) /\
    table (consumeMessage message w).2 = table w /\
    sent (consumeMessage message w).2 = sent w /\
    marked (consumeMessage message w).2 = (marked w ++ [message])%list /\
    logs (consumeMessage message w).2 = (logs w ++
      ["Reply recebido: " +:+ ConsumerMessage.Topic message +:+ " - Success: "
         +:+ fmt_bool (Reply.Success reply) +:+ " - Message: " +:+ Reply.Message reply;
       "Erro ao processar reply: " +:+ err_Error e])%list.
Proof.
  intros Htopic Hreply Hnone.
  destruct message as [topic key body]; simpl in *.
  destruct body as [| |r|]; try discriminate. injection Hreply as ->.
  unfold reply_topics in Htopic; rewrite !elem_of_cons, elem_of_nil in Htopic.
  exists (if (next_fault (db_faults w)).1 then ErrDB else ErrNoRows).
  split; [by intros -> |].
  assert (Hdrop : forall line, processReply topic reply
            (mkWorld (clock w) (ticks w) (rfc3339 w) (rand w) (rolls w)
               (db_faults w) (table w) (bus_faults w) (sent w) (marked w)
               (logs w ++ [line])) =
          (Some (if (next_fault (db_faults w)).1 then ErrDB else ErrNoRows),
           mkWorld (clock w) (ticks w) (rfc3339 w) (rand w) (rolls w)
             (next_fault (db_faults w)).2 (table w) (bus_faults w) (sent w)
             (marked w) (logs w ++ [line]))).
  { intros line. unfold processReply, bind.
    rewrite getCurrentState_unknown by done. simpl.
    by destruct (next_fault (db_faults w)) as [[] rest]. }
  destruct Htopic as [->|[->|[->|[->|[]]]]].
  all: unfold consumeMessage, bind, log_Printf; cbn -[processReply String.append].
  all: rewrite Hdrop; cbn -[String.append]; rewrite <- app_assoc; auto.
Qed.

(** The same for a reply that names a saga the orchestrator never saw. *)
Lemma reply_for_unknown_saga_is_dropped_witness :
  exists e,
    (db_faults completed_world = [] -> e = ErrNoRows) /\
    table (consumeMessage stray_message completed_world).2 = table completed_world /\
    sent (consumeMessage stray_message completed_world).2 = sent completed_world /\
    marked (consumeMessage stray_message completed_world).2
      = (marked completed_world ++ [stray_message])%list /\
    logs (consumeMessage stray_message completed_world).2 = (logs completed_world ++
      ["Reply recebido: " +:+ ConsumerMessage.Topic stray_message +:+ " - Success: "
         +:+ fmt_bool (Reply.Success stray_reply) +:+ " - Message: "
         +:+ Reply.Message stray_reply;
       "Erro ao processar reply: " +:+ err_Error e])%list.
Proof.
  apply (reply_for_unknown_saga_is_dropped completed_world stray_message stray_reply).
  - unfold reply_topics. apply list_elem_of_further, list_elem_of_here.
  - reflexivity.
  - vm_compute. repeat constructor; discriminate.
Defined.



End Acknowledgement.

(** ** Partition keys *)

(** C6, as the spec states it, fails: in the run of [example_order] no
    message on any topic has a key, while all of them belong to the saga
    [example_saga]. *)
Lemma saga_messages_have_no_key :
  ProducerMessage.Key <$> broker (run happy_schedule example_cluster)
    = replicate 10 None /\
  (exists cmd,
     ProducerMessage.Value <$> broker (run happy_schedule example_cluster) !! 1
       = Some (WCommand cmd) /\
     Command.SagaID cmd = example_saga) /\
  (exists reply,
     ProducerMessage.Value <$> broker (run happy_schedule example_cluster) !! 2
       = Some (WReply reply) /\
     Reply.SagaID reply = example_saga).
Proof. vm_compute. split; [reflexivity|]. split; eexists; split; reflexivity. Qed.

Lemma handlers_publish_keyless :
  (forall message, grows sent keyless (Orquestrador.consumeMessage message)) /\
  (forall message, grows sent keyless (Pedidos.consumeMessage message)) /\
  (forall message, grows sent keyless (Estoque.consumeMessage message)) /\
  (forall message, grows sent keyless (Pagamentos.consumeMessage message)) /\
  (forall message, grows sent keyless (Entregas.consumeMessage message)).
Proof.
  repeat split; intros message.
  - unfold_orquestrador. repeat grows_step; reflexivity.
  - unfold_participants. repeat grows_step; reflexivity.
  - unfold_participants. repeat grows_step; reflexivity.
  - unfold_participants. repeat grows_step; reflexivity.
  - unfold_participants. repeat grows_step; reflexivity.
Qed.

Lemma published_grown {Row A : Type} (Q : ProducerMessage.t -> Prop)
    (m : M Row A) (w : World Row) :
  grows sent Q m -> Forall Q (published w (m w).2).
Proof.
  intros Hm. destruct (Hm w) as (msgs & Hsent & HQ).
  unfold published. by rewrite Hsent, drop_app_length.
Qed.

Lemma claim_grown {Row : Type} (Q : ProducerMessage.t -> Prop)
    (body : ConsumerMessage.t -> M Row unit) (claim : list ConsumerMessage.t) :
  (forall message, grows sent Q (body message)) ->
  grows sent Q (bind (range body claim) (fun _ => ret (@None error))).
Proof.
  intros Hbody. apply grows_bind; [by apply grows_range | intros; apply grows_ret].
Qed.

(** C6, amended.  No message that the orchestrator or a participant
    publishes has a partition key: every [ProducerMessage] is built from
    a topic and a value only, and the saga id travels in the body.  For
    every schedule of faults a handler appends to the messages sent only
    messages without a key, and for every schedule of deliveries the
    broker's log, without keys before, is without keys after. *)
Theorem published_messages_have_no_key :
  (forall message, grows sent keyless (Orquestrador.consumeMessage message)) /\
  (forall message, grows sent keyless (Pedidos.consumeMessage message)) /\
  (forall message, grows sent keyless (Estoque.consumeMessage message)) /\
  (forall message, grows sent keyless (Pagamentos.consumeMessage message)) /\
  (forall message, grows sent keyless (Entregas.consumeMessage message)) /\
  (forall schedule c,
     Forall keyless (broker c) -> Forall keyless (broker (run schedule c))).
Proof.
  destruct handlers_publish_keyless as (Ho & Hp & He & Hpg & Hen).
  repeat split; try done.
  intros schedule. unfold run.
  induction schedule as [|offset schedule IH]; intros c Hc; [done|].
  simpl. apply IH. unfold deliver.
  destruct (broker c !! offset) as [msg|]; [|done].
  repeat case_match; try done; simpl.
  all: apply Forall_app; split; [done|].
  all: apply published_grown, claim_grown; done.
Qed.

(** ** Compensations on the participants' tables *)

(** A statement that the database answers leaves the schedule empty. *)
Lemma db_Exec_answers {Row : Type} (stmt : list Row -> list Row) (w : World Row) :
  db_faults w = [] ->
  db_Exec stmt w =
    (None, mkWorld (clock w) (ticks w) (rfc3339 w) (rand w) (rolls w) []
             (stmt (table w)) (bus_faults w) (sent w) (marked w) (logs w)).
Proof. intros Hdb. unfold db_Exec. by rewrite Hdb. Qed.

(** [UPDATE t SET status = value WHERE saga_id = $1], run twice. *)
Section Update.
Context {Row : Type} (saga_id status : Row -> string) (set : Row -> Row)
  (value : string).
Hypothesis set_keeps_saga : forall r, saga_id (set r) = saga_id r.
Hypothesis set_sets_status : forall r, status (set r) = value.
Hypothesis set_twice : forall r, set (set r) = set r.

Lemma update_where_twice (w : World Row) (sagaID : string) :
  db_faults w = [] ->
  let stmt := map (fun r => if String.eqb (saga_id r) sagaID then set r else r) in
  exists w1 w2,
    db_Exec stmt w = (None, w1) /\
    db_Exec stmt w1 = (None, w2) /\
    table w2 = table w1 /\
    Forall (fun r => saga_id r = sagaID -> status r = value) (table w1).
Proof.
  intros Hdb stmt.
  rewrite (db_Exec_answers stmt w Hdb).
  eexists _, _. split; [reflexivity|].
  rewrite db_Exec_answers by reflexivity. simpl.
  split; [reflexivity|]. split.
  - unfold stmt. rewrite map_map. apply map_ext. intros r.
    destruct (String.eqb (saga_id r) sagaID) eqn:E.
    + by rewrite set_keeps_saga, E, set_twice.
    + by rewrite E.
  - apply Forall_forall. intros r Hr Hid.
    apply list_elem_of_fmap in Hr as (r0 & -> & _).
    destruct (String.eqb (saga_id r0) sagaID) eqn:E; [apply set_sets_status|].
    by apply String.eqb_neq in E.
Qed.

End Update.

(** C9.  While the participant's database answers, each compensation
    ([cancelOrder], [releaseStock], [cancelPayment]) returns no error, a
    second application returns no error either and leaves the table as
    the first one left it, with every record of the saga in the status
    CANCELLED (RELEASED for the stock). *)
Theorem compensation_is_idempotent (wo : Pedidos.World) (we : Estoque.World)
    (wp : Pagamentos.World) (sagaID : string) :
  db_faults wo = [] -> db_faults we = [] -> db_faults wp = [] ->
  (exists w1 w2,
     Pedidos.cancelOrder sagaID wo = (None, w1) /\
     Pedidos.cancelOrder sagaID w1 = (None, w2) /\
     table w2 = table w1 /\
     Forall (fun r => Pedidos.orders.saga_id r = sagaID ->
                      Pedidos.orders.status r = "CANCELLED") (table w1)) /\
  (exists w1 w2,
     Estoque.releaseStock sagaID we = (None, w1) /\
     Estoque.releaseStock sagaID w1 = (None, w2) /\
     table w2 = table w1 /\
     Forall (fun r => Estoque.stock_reservations.saga_id r = sagaID ->
                      Estoque.stock_reservations.status r = "RELEASED") (table w1)) /\
  (exists w1 w2,
     Pagamentos.cancelPayment sagaID wp = (None, w1) /\
     Pagamentos.cancelPayment sagaID w1 = (None, w2) /\
     table w2 = table w1 /\
     Forall (fun r => Pagamentos.payments.saga_id r = sagaID ->
                      Pagamentos.payments.status r = "CANCELLED") (table w1)).
Proof.
  intros Ho He Hp. repeat split.
  - by apply (update_where_twice Pedidos.orders.saga_id Pedidos.orders.status
                _ "CANCELLED").
  - by apply (update_where_twice Estoque.stock_reservations.saga_id
                Estoque.stock_reservations.status _ "RELEASED").
  - by apply (update_where_twice Pagamentos.payments.saga_id
                Pagamentos.payments.status _ "CANCELLED").
Qed.

(** The same on the tables that the run of [example_order] leaves. *)
Lemma compensation_is_idempotent_witness :
  (exists w1 w2,
     Pedidos.cancelOrder example_saga completed_pedidos = (None, w1) /\
     Pedidos.cancelOrder example_saga w1 = (None, w2) /\
     table w2 = table w1 /\
     Forall (fun r => Pedidos.orders.saga_id r = example_saga ->
                      Pedidos.orders.status r = "CANCELLED") (table w1)) /\
  (exists w1 w2,
     Estoque.releaseStock example_saga completed_estoque = (None, w1) /\
     Estoque.releaseStock example_saga w1 = (None, w2) /\
     table w2 = table w1 /\
     Forall (fun r => Estoque.stock_reservations.saga_id r = example_saga ->
                      Estoque.stock_reservations.status r = "RELEASED") (table w1)) /\
  (exists w1 w2,
     Pagamentos.cancelPayment example_saga completed_pagamentos = (None, w1) /\
     Pagamentos.cancelPayment example_saga w1 = (None, w2) /\
     table w2 = table w1 /\
     Forall (fun r => Pagamentos.payments.saga_id r = example_saga ->
                      Pagamentos.payments.status r = "CANCELLED") (table w1)).
Proof.
  apply (compensation_is_idempotent completed_pedidos completed_estoque
           completed_pagamentos example_saga); reflexivity.
Defined.

(** The tables of the run of [example_order] are not empty, and the
    compensations change them: the statement above is not about empty
    tables only. *)
Lemma compensation_changes_the_example :
  Pedidos.orders.status <$> table completed_pedidos = ["VALIDATED"] /\
  Pedidos.orders.status <$> table (Pedidos.cancelOrder example_saga completed_pedidos).2
    = ["CANCELLED"] /\
  Estoque.stock_reservations.status
    <$> table (Estoque.releaseStock example_saga completed_estoque).2 = ["RELEASED"] /\
  Pagamentos.payments.status
    <$> table (Pagamentos.cancelPayment example_saga completed_pagamentos).2
    = ["CANCELLED"].
Proof. vm_compute. repeat split; reflexivity. Qed.


(** The reply to a compensation command says success while the database
    answers. *)
Lemma compensation_reply_is_success (wo : Pedidos.World) (we : Estoque.World)
    (wp : Pagamentos.World) (cmd : Command.t) :
  db_faults wo = [] -> db_faults we = [] -> db_faults wp = [] ->
  (Command.CommandType cmd = "CANCEL_ORDER" ->
     Reply.Success (Pedidos.processCommand cmd wo).1 = true) /\
  (Command.CommandType cmd = "RELEASE_STOCK" ->
     Reply.Success (Estoque.processCommand cmd we).1 = true) /\
  (Command.CommandType cmd = "CANCEL_PAYMENT" ->
     Reply.Success (Pagamentos.processCommand cmd wp).1 = true).
Proof.
  intros Ho He Hp.
  destruct wo as [? ? ? ? ? dbo tblo ? ? ? ?], we as [? ? ? ? ? dbe tble ? ? ? ?],
    wp as [? ? ? ? ? dbp tblp ? ? ? ?], cmd as [? ? ? commandType ? ?].
  simpl in *; subst.
  repeat split; intros ->; cbv -[map]; reflexivity.
Qed.

(** ** The order's context on the successful run *)

(** The order service builds the data of its reply from the order it
    stored: the payload of the command is not copied, and the address of
    the order is not among the fields of an order. *)
Lemma order_reply_has_no_address (cmd : Command.t) (w : Pedidos.World)
    (data : gmap string Value) :
  Reply.Data (Pedidos.processCommand cmd w).1 = Some data ->
  data !! "address" = None.
Proof.
  destruct w as [? ? ? ? ? faults ? ? ? ? ?], cmd as [? ? ? commandType ? ?].
  unfold Pedidos.processCommand, Pedidos.validateOrder, Pedidos.cancelOrder,
    db_Exec, generateID, time_Now, bind, ret; simpl.
  destruct (String.eqb commandType "VALIDATE_ORDER");
    [ | destruct (String.eqb commandType "CANCEL_ORDER") ].
  all: destruct faults as [|[] ?]; simpl; intros [= <-]; reflexivity.
Qed.

(** In the run of [example_order] the address of the ingress payload is
    in no event after PENDING, and the delivery is stored with the
    default address of [scheduleDelivery]. *)
Lemma example_address_is_lost :
  example_order !! "address" = Some (VStr "Rua Exemplo, 123 - São Paulo/SP") /\
  (last (table completed_world) ≫= Orquestrador.saga_events.data)
    ≫= (.!! "address") = None /\
  Entregas.deliveries.address <$> table (entregas (run happy_schedule example_cluster))
    = ["Rua Exemplo, 123"].
Proof. vm_compute. repeat split; reflexivity. Qed.

Lemma latest_state_last (sagaID : string)
    (rows : list Orquestrador.saga_events.row) (r : Orquestrador.saga_events.row) :
  last rows = Some r ->
  Orquestrador.saga_events.saga_id r = sagaID ->
  Orquestrador.latest_state sagaID rows = Some (Orquestrador.saga_events.state r).
Proof.
  intros Hlast Hid.
  destruct rows as [|r0 rows _] using rev_ind; [done|].
  rewrite last_snoc in Hlast. injection Hlast as ->.
  by apply latest_state_snoc.
Qed.

(** Evaluation of the cluster on worlds given by their fields.  The
    handlers, the maps and whatever reads the payload stay folded. *)
Ltac run_eval :=
  cbv -[pretty String.append Z.add Z.mul Z.div Unix Add_48h Nat.add
        Z.ltb assertString
        getStringFromPayload getIntFromPayload getFloatFromPayload
        Orquestrador.getOrderID Orquestrador.latest_state
        map_insert gmap_partial_alter gmap_lookup gmap_empty map_union
        gmap_merge pretty_Z String.countable String.eq_dec
        deliver Orquestrador.ConsumeClaim Pedidos.ConsumeClaim
        Estoque.ConsumeClaim Pagamentos.ConsumeClaim Entregas.ConsumeClaim].

Ltac run_eval_in H :=
  cbv -[pretty String.append Z.add Z.mul Z.div Unix Add_48h Nat.add
        Z.ltb assertString
        getStringFromPayload getIntFromPayload getFloatFromPayload
        Orquestrador.getOrderID Orquestrador.latest_state
        map_insert gmap_partial_alter gmap_lookup gmap_empty map_union
        gmap_merge pretty_Z String.countable String.eq_dec
        deliver Orquestrador.ConsumeClaim Pedidos.ConsumeClaim
        Estoque.ConsumeClaim Pagamentos.ConsumeClaim Entregas.ConsumeClaim] in H.

(** Evaluate the call of a handler in the goal; [tac] settles what the
    evaluation cannot decide (a draw, the current state). *)
Ltac handle handler tac :=
  lazymatch goal with
  | |- context [handler ?claim ?w] =>
      let E := fresh "E" in
      let res := fresh "res" in
      let T := type of (handler claim w) in
      evar (res : T);
      assert (E : handler claim w = res)
        by (unfold handler; run_eval; tac; subst res; reflexivity);
      rewrite !E; subst res; clear E
  end.

(** Evaluate the delivery of the message at [offset] to [handler]. *)
Ltac deliver_to offset handler tac :=
  lazymatch goal with
  | |- context [deliver offset ?c] =>
      let E := fresh "E" in
      let c' := fresh "c" in
      evar (c' : Cluster);
      assert (E : deliver offset c = c')
        by (unfold deliver; run_eval; handle handler tac; run_eval;
            subst c'; reflexivity);
      rewrite E; subst c'; clear E
  end.

Ltac current_state := erewrite latest_state_last by reflexivity; run_eval.

(** Forget the values stored in a map: its keys decide a lookup. *)
Ltac forget_values :=
  repeat match goal with
         | |- context [map_insert ?k ?v ?m] =>
             lazymatch v with
             | VStr _ => idtac
             | VNum _ => idtac
             end;
             let x := fresh "v" in
             generalize v; intros x
         end.

(** C4.  On the run of an order through five healthy processes in which
    the stock and the payment draws do not ask for a simulated failure,
    every participant replies success and the events are PENDING,
    ORDER_VALIDATED, STOCK_RESERVED, PAYMENT_PROCESSED and COMPLETED; the
    data of the COMPLETED event has the keys order_id, customer_id,
    product_id, quantity and total_amount, and it has no key address,
    whatever the ingress payload holds. *)
Theorem address_is_lost_on_the_way (co cp ce cpg cen : nat -> time_Time)
    (fo fp fe fpg fen : time_Time -> string)
    (ro rp re rpg ren : nat -> Z) (orderData : gmap string Value) :
  (10 <= re 0%nat)%Z -> (5 <= rpg 0%nat)%Z ->
  let c := run happy_schedule
             (submit (boot co fo ro) (boot cp fp rp) (boot ce fe re)
                (boot cpg fpg rpg) (boot cen fen ren) orderData) in
  Forall replied_success (broker c) /\
  Orquestrador.saga_events.state <$> table (orquestrador c)
    = [Orquestrador.StatePending; Orquestrador.StateOrderValidated;
       Orquestrador.StateStockReserved; Orquestrador.StatePaymentProcessed;
       Orquestrador.StateCompleted] /\
  exists r d,
    last (table (orquestrador c)) = Some r /\
    Orquestrador.saga_events.data r = Some d /\
    Forall (fun key => d !! key <> None)
      ["order_id"; "customer_id"; "product_id"; "quantity"; "total_amount"] /\
    d !! "address" = None.
Proof.
  intros Hre Hrpg c. subst c.
  apply Z.ltb_ge in Hre, Hrpg.
  unfold run, happy_schedule. cbn [seq foldl].
  unfold submit, boot.
  destruct (assertString (orderData !! "order_id")) as [orderID|] eqn:Hid;
    run_eval_in Hid.
  all: deliver_to 0 Orquestrador.ConsumeClaim ltac:(rewrite Hid; run_eval).
  all: deliver_to 1 Pedidos.ConsumeClaim ltac:(idtac).
  all: deliver_to 2 Orquestrador.ConsumeClaim ltac:(current_state).
  all: deliver_to 3 Estoque.ConsumeClaim ltac:(rewrite Hre; run_eval).
  all: deliver_to 4 Orquestrador.ConsumeClaim ltac:(current_state).
  all: deliver_to 5 Pagamentos.ConsumeClaim ltac:(rewrite Hrpg; run_eval).
  all: deliver_to 6 Orquestrador.ConsumeClaim ltac:(current_state).
  all: deliver_to 7 Entregas.ConsumeClaim ltac:(idtac).
  all: deliver_to 8 Orquestrador.ConsumeClaim ltac:(current_state).
  all: cbn [orquestrador broker table fmap list_fmap last
            Orquestrador.saga_events.state].
  all: split; [ repeat constructor; intros reply [= <-]; reflexivity | ].
  all: split; [ reflexivity | ].
  all: eexists _, _; split; [reflexivity|]; split; [reflexivity|].
  all: forget_values; vm_compute.
  all: split; [ repeat constructor; discriminate | reflexivity ].
Qed.

(** The same at the run of [example_order]. *)
Lemma address_is_lost_on_the_way_witness :
  let c := run happy_schedule example_cluster in
  Forall replied_success (broker c) /\
  Orquestrador.saga_events.state <$> table (orquestrador c)
    = [Orquestrador.StatePending; Orquestrador.StateOrderValidated;
       Orquestrador.StateStockReserved; Orquestrador.StatePaymentProcessed;
       Orquestrador.StateCompleted] /\
  exists r d,
    last (table (orquestrador c)) = Some r /\
    Orquestrador.saga_events.data r = Some d /\
    Forall (fun key => d !! key <> None)
      ["order_id"; "customer_id"; "product_id"; "quantity"; "total_amount"] /\
    d !! "address" = None.
Proof.
  apply (address_is_lost_on_the_way
           (example_clock 0) (example_clock 1) (example_clock 2)
           (example_clock 3) (example_clock 4)
           pretty pretty pretty pretty pretty
           (fun _ => 50%Z) (fun _ => 50%Z) (fun _ => 50%Z) (fun _ => 50%Z)
           (fun _ => 50%Z) example_order); lia.
Defined.

(** * Further properties of the code *)

(** Evaluation of one handler on a world given by its fields: lists,
    maps, identifiers and whatever reads the payload stay folded. *)
Ltac hand_eval :=
  cbv -[pretty String.append app last Z.add Z.mul Z.div Unix Add_48h Nat.add
        Z.ltb assertString
        getStringFromPayload getIntFromPayload getFloatFromPayload
        Orquestrador.getOrderID Orquestrador.latest_state
        map_insert gmap_partial_alter gmap_lookup gmap_empty map_union
        gmap_merge pretty_Z String.countable String.eq_dec].

Ltac hand_eval_in H :=
  cbv -[pretty String.append app last Z.add Z.mul Z.div Unix Add_48h Nat.add
        Z.ltb assertString
        getStringFromPayload getIntFromPayload getFloatFromPayload
        Orquestrador.getOrderID Orquestrador.latest_state
        map_insert gmap_partial_alter gmap_lookup gmap_empty map_union
        gmap_merge pretty_Z String.countable String.eq_dec] in H.

(** The same with the operations on maps folded as well. *)
Ltac data_eval :=
  cbv -[pretty String.append app last Z.add Z.mul Z.div Unix Add_48h Nat.add
        Z.ltb assertString
        getStringFromPayload getIntFromPayload getFloatFromPayload
        insert union empty lookup
        map_insert gmap_partial_alter gmap_lookup gmap_empty map_union
        gmap_merge pretty_Z String.countable String.eq_dec].

(** ** Rules for [yields] *)

Section Yields.
Context {Row : Type}.

Lemma yields_ret {A : Type} (P : A -> Prop) (a : A) :
  P a -> yields (Row := Row) P (ret a).
Proof. intros HP w. exact HP. Qed.

Lemma yields_bind {A B : Type} (P : B -> Prop) (m : M Row A) (k : A -> M Row B) :
  (forall a, yields P (k a)) -> yields P (bind m k).
Proof.
  intros Hk w. unfold bind. destruct (m w) as [a w1]. apply Hk.
Qed.

(** What [m] returns may be used to show what the rest appends. *)
Lemma grows_bind_yields {A B X : Type} (field : World Row -> list X)
    (P : X -> Prop) (Q : A -> Prop) (m : M Row A) (k : A -> M Row B) :
  yields Q m -> grows field P m -> (forall a, Q a -> grows field P (k a)) ->
  grows field P (bind m k).
Proof.
  intros HQ Hm Hk w. unfold bind.
  destruct (Hm w) as (xs1 & Hfield1 & HP1). specialize (HQ w).
  destruct (m w) as [a w1]. simpl in *.
  destruct (Hk a HQ w1) as (xs2 & Hfield2 & HP2).
  exists (xs1 ++ xs2)%list.
  rewrite Hfield2, Hfield1, app_assoc. split; [reflexivity | by apply Forall_app].
Qed.

End Yields.

Ltac yields_step :=
  lazymatch goal with
  | |- yields _ (bind _ _) => apply yields_bind; intros ?
  | |- yields _ (ret _) => apply yields_ret
  | |- yields _ (match ?x with _ => _ end) => destruct x
  end.

(** ** The first step of a saga *)

Section Ingress.
Import Orquestrador.

(** [getCurrentState] when the database answers the query and has more
    calls scheduled. *)
Lemma getCurrentState_answers (w : World) (sagaID S : string) (rest : list bool) :
  db_faults w = false :: rest ->
  latest_state sagaID (table w) = Some S ->
  getCurrentState sagaID w =
    ((S, None),
     mkWorld (clock w) (ticks w) (rfc3339 w) (rand w) (rolls w) rest (table w)
       (bus_faults w) (sent w) (marked w) (logs w)).
Proof.
  intros Hdb Hlatest.
  unfold getCurrentState, db_QueryRow, bind. rewrite Hdb, Hlatest. reflexivity.
Qed.

(** X1.  A JSON object on the ingress topic starts a saga when the
    database and the broker answer: the saga id is the clock reading, the
    order id is the object's [order_id] when that is a string and a new
    clock reading otherwise (then also written into the payload), one
    PENDING event with the payload is appended, one VALIDATE_ORDER
    command with the same payload goes to pedidos-commands, and the
    message is marked. *)
Theorem ingress_starts_a_saga (w : World) (message : ConsumerMessage.t)
    (orderData : gmap string Value) :
  ConsumerMessage.Topic message = ingress_topic ->
  ConsumerMessage.Value message = WObject orderData ->
  healthy w ->
  let sagaID := pretty (clock w (ticks w)) in
  let orderID := match assertString (orderData !! "order_id") with
                 | Some id => id
                 | None => pretty (clock w (1 + ticks w))
                 end in
  let payload := match assertString (orderData !! "order_id") with
                 | Some _ => orderData
                 | None => <["order_id" := VStr orderID]> orderData
                 end in
  let w' := (consumeMessage message w).2 in
  table w' = (table w ++ [saga_events.mk sagaID orderID StatePending
                            (Some payload) ""])%list /\
  (exists id ts,
     sent w' = (sent w ++ [ProducerMessage.mk "pedidos-commands" None
                             (WCommand (Command.mk id sagaID orderID "VALIDATE_ORDER"
                                          (Some payload) ts))])%list) /\
  marked w' = (marked w ++ [message])%list.
Proof.
  intros Htopic Hbody [Hdb Hbus].
  destruct message as [topic key body],
    w as [clk tks fmt rnd rls dbf tbl busf snt mrk lgs].
  simpl in *; subst.
  destruct (assertString (orderData !! "order_id")) as [id|] eqn:Hid;
    hand_eval_in Hid; hand_eval; rewrite Hid; hand_eval.
  all: repeat split; eauto.
Qed.

(** The same for the order of the simulator at a fresh orchestrator. *)
Lemma ingress_starts_a_saga_witness :
  let w := example_boot 0 in
  let message := example_ingress in
  let orderData := example_order in
  let sagaID := pretty (clock w (ticks w)) in
  let orderID := match assertString (orderData !! "order_id") with
                 | Some id => id
                 | None => pretty (clock w (1 + ticks w))
                 end in
  let payload := match assertString (orderData !! "order_id") with
                 | Some _ => orderData
                 | None => <["order_id" := VStr orderID]> orderData
                 end in
  let w' := (consumeMessage message w).2 in
  table w' = (table w ++ [saga_events.mk sagaID orderID StatePending
                            (Some payload) ""])%list /\
  (exists id ts,
     sent w' = (sent w ++ [ProducerMessage.mk "pedidos-commands" None
                             (WCommand (Command.mk id sagaID orderID "VALIDATE_ORDER"
                                          (Some payload) ts))])%list) /\
  marked w' = (marked w ++ [message])%list.
Proof.
  intros w message orderData.
  apply (ingress_starts_a_saga w message orderData);
    [reflexivity | reflexivity | split; reflexivity].
Defined.

(** X2.  A message on the ingress topic whose body is not valid JSON is
    acknowledged and dropped with a log line that ends with the message
    of the decoder's syntax error: no saga is started, nothing is
    written and nothing is sent. *)
Theorem malformed_order_is_dropped (w : World) (message : ConsumerMessage.t)
    (text : string) :
  ConsumerMessage.Topic message = ingress_topic ->
  ConsumerMessage.Value message = WInvalid text ->
  consumeMessage message w =
    (tt, mkWorld (clock w) (ticks w) (rfc3339 w) (rand w) (rolls w)
           (db_faults w) (table w) (bus_faults w) (sent w)
           (marked w ++ [message])
           (logs w ++ ["Erro ao iniciar SAGA: " +:+ text])).
Proof.
  intros Htopic Hbody. destruct message as [topic key body]; simpl in *; subst.
  reflexivity.
Qed.

(** The same for bytes that are not JSON at a fresh orchestrator. *)
Lemma malformed_order_is_dropped_witness :
  let w : World := example_boot 0 in
  let message := malformed_order in
  consumeMessage message w =
    (tt, mkWorld (clock w) (ticks w) (rfc3339 w) (rand w) (rolls w)
           (db_faults w) (table w) (bus_faults w) (sent w)
           (marked w ++ [message])
           (logs w ++ ["Erro ao iniciar SAGA: " +:+ not_json])).
Proof.
  intros w message.
  apply (malformed_order_is_dropped w message not_json); reflexivity.
Defined.

(** X3.  When the insert of the PENDING event fails, the order is lost:
    [startNewSaga] returns the error, no event is written and no command
    is sent, the error is logged and the message is marked all the same,
    so the broker does not deliver the order again. *)
Theorem order_is_lost_when_pending_write_fails (w : World)
    (message : ConsumerMessage.t) (orderData : gmap string Value)
    (rest : list bool) :
  ConsumerMessage.Topic message = ingress_topic ->
  ConsumerMessage.Value message = WObject orderData ->
  db_faults w = true :: rest ->
  table (consumeMessage message w).2 = table w /\
  sent (consumeMessage message w).2 = sent w /\
  marked (consumeMessage message w).2 = (marked w ++ [message])%list /\
  last (logs (consumeMessage message w).2)
    = Some ("Erro ao iniciar SAGA: " +:+ err_Error ErrDB).
Proof.
  intros Htopic Hbody Hdb.
  destruct message as [topic key body],
    w as [clk tks fmt rnd rls dbf tbl busf snt mrk lgs].
  simpl in *; subst.
  destruct (assertString (orderData !! "order_id")) as [id|] eqn:Hid;
    hand_eval_in Hid; hand_eval; rewrite Hid; hand_eval.
  all: rewrite last_snoc; auto.
Qed.

(** The same for the order of the simulator at an orchestrator whose
    first database call fails. *)
Lemma order_is_lost_when_pending_write_fails_witness :
  let w : World := with_faults [true] [] (example_boot 0) in
  let message := example_ingress in
  table (consumeMessage message w).2 = table w /\
  sent (consumeMessage message w).2 = sent w /\
  marked (consumeMessage message w).2 = (marked w ++ [message])%list /\
  last (logs (consumeMessage message w).2)
    = Some ("Erro ao iniciar SAGA: " +:+ err_Error ErrDB).
Proof.
  intros w message.
  apply (order_is_lost_when_pending_write_fails w message example_order []);
    reflexivity.
Defined.

(** X4.  When the broker refuses the VALIDATE_ORDER command, the saga
    stays PENDING for ever: the PENDING event is already written, no
    command is out, the error is logged and the message is marked. *)
Theorem saga_is_stuck_when_first_command_fails (w : World)
    (message : ConsumerMessage.t) (orderData : gmap string Value)
    (rest : list bool) :
  ConsumerMessage.Topic message = ingress_topic ->
  ConsumerMessage.Value message = WObject orderData ->
  db_faults w = [] ->
  bus_faults w = true :: rest ->
  (exists r, table (consumeMessage message w).2 = (table w ++ [r])%list /\
             saga_events.state r = StatePending /\
             saga_events.saga_id r = pretty (clock w (ticks w))) /\
  sent (consumeMessage message w).2 = sent w /\
  marked (consumeMessage message w).2 = (marked w ++ [message])%list /\
  last (logs (consumeMessage message w).2)
    = Some ("Erro ao iniciar SAGA: " +:+ err_Error ErrProducer).
Proof.
  intros Htopic Hbody Hdb Hbus.
  destruct message as [topic key body],
    w as [clk tks fmt rnd rls dbf tbl busf snt mrk lgs].
  simpl in *; subst.
  destruct (assertString (orderData !! "order_id")) as [id|] eqn:Hid;
    hand_eval_in Hid; hand_eval; rewrite Hid; hand_eval.
  all: rewrite last_snoc; eauto 10.
Qed.

(** The same for the order of the simulator at an orchestrator whose
    first send fails. *)
Lemma saga_is_stuck_when_first_command_fails_witness :
  let w : World := with_faults [] [true] (example_boot 0) in
  let message := example_ingress in
  (exists r, table (consumeMessage message w).2 = (table w ++ [r])%list /\
             saga_events.state r = StatePending /\
             saga_events.saga_id r = pretty (clock w (ticks w))) /\
  sent (consumeMessage message w).2 = sent w /\
  marked (consumeMessage message w).2 = (marked w ++ [message])%list /\
  last (logs (consumeMessage message w).2)
    = Some ("Erro ao iniciar SAGA: " +:+ err_Error ErrProducer).
Proof.
  intros w message.
  apply (saga_is_stuck_when_first_command_fails w message example_order []);
    reflexivity.
Defined.

End Ingress.

(** ** Forward steps under faults *)

Section ForwardFaults.
Import Orquestrador.

(** X5.  When the broker refuses the next forward command, [processReply]
    returns the error before it writes: the state of the saga stays as it
    was and no command is out. *)
Theorem state_is_kept_when_command_fails (w : World) (reply : Reply.t)
    (S : SagaState) (topic : string) (nextState : SagaState)
    (commandType commandTopic : string) (rest : list bool) :
  db_faults w = [] ->
  bus_faults w = true :: rest ->
  latest_state (Reply.SagaID reply) (table w) = Some S ->
  Reply.Success reply = true ->
  (topic, nextState, commandType, commandTopic) ∈ forward_steps ->
  (processReply topic reply w).1 = Some ErrProducer /\
  table (processReply topic reply w).2 = table w /\
  sent (processReply topic reply w).2 = sent w.
Proof.
  intros Hdb Hbus Hlatest Hok Hstep.
  unfold processReply, bind.
  rewrite (getCurrentState_found w _ S Hdb Hlatest).
  destruct w as [clk tks fmt rnd rls dbf tbl busf snt mrk lgs],
    reply as [? ? ? ? ? [data|] ?]; simpl in *; subst.
  all: unfold forward_steps in Hstep; rewrite !elem_of_cons, elem_of_nil in Hstep.
  all: destruct Hstep as [Hstep|[Hstep|[Hstep|[]]]]; injection Hstep as -> -> -> ->.
  all: hand_eval; auto.
Qed.

(** The same for the stock reply of [example_order] when the send of
    PROCESS_PAYMENT fails. *)
Lemma state_is_kept_when_command_fails_witness :
  let w : World := with_faults [] [true] stock_reserved_world in
  let reply := stock_reply in
  let topic := "estoque-reply" in
  (processReply topic reply w).1 = Some ErrProducer /\
  table (processReply topic reply w).2 = table w /\
  sent (processReply topic reply w).2 = sent w.
Proof.
  intros w reply topic.
  apply (state_is_kept_when_command_fails w reply StateStockReserved topic
           StateStockReserved "PROCESS_PAYMENT" "pagamentos-commands" []).
  - reflexivity.
  - reflexivity.
  - vm_compute; reflexivity.
  - reflexivity.
  - unfold forward_steps. apply list_elem_of_further, list_elem_of_here.
Defined.

(** X6.  The forward step is not atomic: the command is sent before the
    transition is written.  When that write fails, [processReply]
    returns the database error with the next command already out and the
    state of the saga as it was. *)
Theorem command_is_out_when_transition_write_fails (w : World) (reply : Reply.t)
    (S : SagaState) (topic : string) (nextState : SagaState)
    (commandType commandTopic : string) (rest : list bool) :
  db_faults w = false :: true :: rest ->
  bus_faults w = [] ->
  latest_state (Reply.SagaID reply) (table w) = Some S ->
  Reply.Success reply = true ->
  (topic, nextState, commandType, commandTopic) ∈ forward_steps ->
  (processReply topic reply w).1 = Some ErrDB /\
  table (processReply topic reply w).2 = table w /\
  sent (processReply topic reply w).2
    = (sent w ++ [next_command w reply commandType commandTopic])%list.
Proof.
  intros Hdb Hbus Hlatest Hok Hstep.
  unfold processReply, bind.
  rewrite (getCurrentState_answers w _ S _ Hdb Hlatest).
  destruct w as [clk tks fmt rnd rls dbf tbl busf snt mrk lgs],
    reply as [? ? ? ? ? [data|] ?]; simpl in *; subst.
  all: unfold forward_steps in Hstep; rewrite !elem_of_cons, elem_of_nil in Hstep.
  all: destruct Hstep as [Hstep|[Hstep|[Hstep|[]]]]; injection Hstep as -> -> -> ->.
  all: hand_eval; auto.
Qed.

(** The same for the stock reply of [example_order] when the insert of
    STOCK_RESERVED fails. *)
Lemma command_is_out_when_transition_write_fails_witness :
  let w : World := with_faults [false; true] [] stock_reserved_world in
  let reply := stock_reply in
  let topic := "estoque-reply" in
  (processReply topic reply w).1 = Some ErrDB /\
  table (processReply topic reply w).2 = table w /\
  sent (processReply topic reply w).2
    = (sent w ++ [next_command w reply "PROCESS_PAYMENT" "pagamentos-commands"])%list.
Proof.
  intros w reply topic.
  apply (command_is_out_when_transition_write_fails w reply StateStockReserved topic
           StateStockReserved "PROCESS_PAYMENT" "pagamentos-commands" []).
  - reflexivity.
  - reflexivity.
  - vm_compute; reflexivity.
  - reflexivity.
  - unfold forward_steps. apply list_elem_of_further, list_elem_of_here.
Defined.

(** X7.  A successful reply on entregas-reply completes the saga
    whatever its state and whatever the broker does: the COMPLETED event
    is written even when the publication of the processed order fails,
    and when the broker accepts it the message on
    pedido-saga-pedido-processado carries the saga id, the order id of
    the reply's data, the status COMPLETED, the formatted time and the
    reply's data. *)
Theorem delivery_reply_completes (w : World) (reply : Reply.t) (S : SagaState) :
  db_faults w = [] ->
  latest_state (Reply.SagaID reply) (table w) = Some S ->
  Reply.Success reply = true ->
  (processReply "entregas-reply" reply w).1 = None /\
  table (processReply "entregas-reply" reply w).2
    = (table w ++ [transition reply StateCompleted])%list /\
  sent (processReply "entregas-reply" reply w).2
    = (if (next_fault (bus_faults w)).1 then sent w
       else (sent w ++ [ProducerMessage.mk "pedido-saga-pedido-processado" None
                          (WObject (processed_event w reply))])%list).
Proof.
  intros Hdb Hlatest Hok.
  unfold processReply, bind.
  rewrite (getCurrentState_found w _ S Hdb Hlatest).
  destruct w as [clk tks fmt rnd rls dbf tbl busf snt mrk lgs],
    reply as [? ? ? ? ? [data|] ?]; simpl in *; subst.
  all: destruct busf as [|[] rest]; hand_eval; auto.
Qed.

(** The same for the delivery reply of [example_order]. *)
Lemma delivery_reply_completes_witness :
  let w := payment_processed_world in
  let reply := delivery_reply in
  (processReply "entregas-reply" reply w).1 = None /\
  table (processReply "entregas-reply" reply w).2
    = (table w ++ [transition reply StateCompleted])%list /\
  sent (processReply "entregas-reply" reply w).2
    = (if (next_fault (bus_faults w)).1 then sent w
       else (sent w ++ [ProducerMessage.mk "pedido-saga-pedido-processado" None
                          (WObject (processed_event w reply))])%list).
Proof.
  intros w reply.
  apply (delivery_reply_completes w reply StatePaymentProcessed).
  - reflexivity.
  - vm_compute; reflexivity.
  - reflexivity.
Defined.

End ForwardFaults.

(** ** The event log *)

Section EventLog.
Import Orquestrador.

(** The inputs above are those of the run of [example_order]. *)
Lemma further_inputs_are_of_the_run :
  toConsumer <$> broker (run happy_schedule example_cluster) !! 8
    = Some (ConsumerMessage.mk "entregas-reply" None (WReply delivery_reply)) /\
  latest_state example_saga (table payment_processed_world)
    = Some StatePaymentProcessed /\
  toConsumer <$> broker (run happy_schedule example_cluster) !! 3
    = Some (example_command_message "estoque-commands" "RESERVE_STOCK") /\
  last (sent failed_world)
    = Some (ProducerMessage.mk "pedidos-commands" None (WCommand cancel_order_command)) /\
  latest_state example_saga (table failed_world) = Some StateFailed /\
  latest_state example_saga (table two_sagas_world) = Some StatePending /\
  latest_state second_saga (table two_sagas_world) = Some StatePending.
Proof. vm_compute. repeat split; reflexivity. Qed.

(** X8.  The event log only grows, and DELIVERY_SCHEDULED is never
    written: whatever the message and the faults, the handler leaves the
    rows of [saga_events] in place and appends rows whose state is not
    DELIVERY_SCHEDULED (the constant is declared and not used). *)
Theorem event_log_is_append_only (w : World) (message : ConsumerMessage.t) :
  exists rows,
    table (consumeMessage message w).2 = (table w ++ rows)%list /\
    Forall (fun r => saga_events.state r <> StateDeliveryScheduled) rows.
Proof.
  revert w. change (grows table
    (fun r => saga_events.state r <> StateDeliveryScheduled) (consumeMessage message)).
  unfold consumeMessage, startNewSaga, processReply.
  repeat lazymatch goal with
  | |- grows _ _ (bind (if String.eqb _ "pedidos-reply" then _ else _) _) =>
      apply (grows_bind_yields _ _ never_delivery_scheduled);
        [ unfold forward; repeat yields_step; simpl; try done
        | unfold_orquestrador; repeat grows_step
        | intros [nextState|e] Hnext ]
  | |- grows _ _ (startCompensation _ _ _) => unfold_orquestrador
  | |- grows _ _ (saveEvent _) => unfold saveEvent
  | |- grows _ _ (getCurrentState _) => unfold getCurrentState
  | |- grows _ _ (sendCommand _ _) => unfold sendCommand
  | |- _ => grows_step
  end.
  all: simpl; try done.
Qed.

(** The events of another saga do not change the state read for a saga. *)
Lemma latest_state_other (sagaID : string) (rows more : list saga_events.row) :
  Forall (fun r => saga_events.saga_id r <> sagaID) more ->
  latest_state sagaID (rows ++ more) = latest_state sagaID rows.
Proof.
  intros Hmore. unfold latest_state. rewrite filter_app.
  replace (filter (fun r => saga_events.saga_id r = sagaID) more) with
    (@nil saga_events.row); [by rewrite app_nil_r|].
  induction Hmore as [|r more Hr _ IH]; [done|].
  by rewrite filter_cons_False.
Qed.

(** X9.  A reply touches its own saga only: every event [processReply]
    appends carries the saga id of the reply, so the current state of
    every other saga is as before. *)
Theorem reply_touches_its_saga_only (w : World) (topic : string) (reply : Reply.t)
    (sagaID : string) :
  sagaID <> Reply.SagaID reply ->
  (exists rows,
     table (processReply topic reply w).2 = (table w ++ rows)%list /\
     Forall (fun r => saga_events.saga_id r = Reply.SagaID reply) rows) /\
  latest_state sagaID (table (processReply topic reply w).2)
    = latest_state sagaID (table w).
Proof.
  intros Hother.
  assert (Hgrows : grows table
            (fun r => saga_events.saga_id r = Reply.SagaID reply)
            (processReply topic reply)).
  { unfold_orquestrador. repeat grows_step; reflexivity. }
  destruct (Hgrows w) as (rows & Htable & Hrows).
  split; [by exists rows|].
  rewrite Htable. apply latest_state_other.
  eapply Forall_impl; [exact Hrows|]. simpl. congruence.
Qed.

(** The same for the order reply of [example_order] at an orchestrator
    that runs a second saga. *)
Lemma reply_touches_its_saga_only_witness :
  let w := two_sagas_world in
  let topic := "pedidos-reply" in
  let reply := order_reply in
  let sagaID := second_saga in
  (exists rows,
     table (processReply topic reply w).2 = (table w ++ rows)%list /\
     Forall (fun r => saga_events.saga_id r = Reply.SagaID reply) rows) /\
  latest_state sagaID (table (processReply topic reply w).2)
    = latest_state sagaID (table w).
Proof.
  intros w topic reply sagaID.
  apply (reply_touches_its_saga_only w topic reply sagaID). discriminate.
Defined.

End EventLog.

(** ** The failure path under faults *)

Section FailureFaults.
Import Orquestrador.

(** X10.  While the database answers, a reply with [Success = false]
    ends the saga FAILED whatever the broker does: [startCompensation]
    ignores the result of every send, so a compensation the broker
    refuses is skipped without a trace in the event log, the others are
    sent, and COMPENSATING and FAILED are written all the same. *)
Theorem saga_fails_whatever_the_broker_does (w : World) (topic : string)
    (reply : Reply.t) (S : SagaState) :
  db_faults w = [] ->
  latest_state (Reply.SagaID reply) (table w) = Some S ->
  Reply.Success reply = false ->
  (processReply topic reply w).1 = None /\
  table (processReply topic reply w).2 = (table w ++
    [saga_events.mk (Reply.SagaID reply) "" StateCompensating None (Reply.Message reply);
     saga_events.mk (Reply.SagaID reply) "" StateFailed None (Reply.Message reply)])%list /\
  sent (processReply topic reply w).2 = (sent w ++
    accepted (bus_faults w)
      (imap (compensation w (Reply.SagaID reply)) (compensations S)))%list.
Proof.
  intros Hdb Hlatest Hfail.
  unfold processReply, bind.
  rewrite (getCurrentState_found w _ S Hdb Hlatest).
  destruct w as [clk tks fmt rnd rls dbf tbl busf snt mrk lgs], reply.
  simpl in *; subst.
  unfold startCompensation, compensations.
  destruct (String.eqb S StatePaymentProcessed);
    [| destruct (String.eqb S StateStockReserved);
       [| destruct (String.eqb S StateOrderValidated)]].
  all: destruct busf as [|[] [|[] [|[] rest]]]; hand_eval.
  all: rewrite <- ?app_assoc, ?app_nil_r; auto.
Qed.

(** The same for the refused payment of [example_order] when the broker
    refuses RELEASE_STOCK and accepts CANCEL_ORDER. *)
Lemma saga_fails_whatever_the_broker_does_witness :
  let w : World := with_faults [] [true; false] stock_reserved_world in
  let topic := "pagamentos-reply" in
  let reply := payment_refused in
  let S := StateStockReserved in
  (processReply topic reply w).1 = None /\
  table (processReply topic reply w).2 = (table w ++
    [saga_events.mk (Reply.SagaID reply) "" StateCompensating None (Reply.Message reply);
     saga_events.mk (Reply.SagaID reply) "" StateFailed None (Reply.Message reply)])%list /\
  sent (processReply topic reply w).2 = (sent w ++
    accepted (bus_faults w)
      (imap (compensation w (Reply.SagaID reply)) (compensations S)))%list.
Proof.
  intros w topic reply S.
  apply (saga_fails_whatever_the_broker_does w topic reply S).
  - reflexivity.
  - vm_compute; reflexivity.
  - reflexivity.
Defined.

(** X11.  When the insert of the COMPENSATING event fails, nothing is
    compensated: [startCompensation] returns the database error before
    the switch, so no compensation command is sent and no event is
    written, whatever steps the saga has completed. *)
Theorem nothing_is_compensated_when_compensating_write_fails (w : World)
    (topic : string) (reply : Reply.t) (S : SagaState) (rest : list bool) :
  db_faults w = false :: true :: rest ->
  latest_state (Reply.SagaID reply) (table w) = Some S ->
  Reply.Success reply = false ->
  (processReply topic reply w).1 = Some ErrDB /\
  table (processReply topic reply w).2 = table w /\
  sent (processReply topic reply w).2 = sent w.
Proof.
  intros Hdb Hlatest Hfail.
  unfold processReply, bind.
  rewrite (getCurrentState_answers w _ S _ Hdb Hlatest).
  destruct w as [clk tks fmt rnd rls dbf tbl busf snt mrk lgs], reply.
  simpl in *; subst.
  unfold startCompensation. hand_eval. auto.
Qed.

(** The same for the refused payment of [example_order]. *)
Lemma nothing_is_compensated_when_compensating_write_fails_witness :
  let w : World := with_faults [false; true] [] stock_reserved_world in
  let topic := "pagamentos-reply" in
  let reply := payment_refused in
  (processReply topic reply w).1 = Some ErrDB /\
  table (processReply topic reply w).2 = table w /\
  sent (processReply topic reply w).2 = sent w.
Proof.
  intros w topic reply.
  apply (nothing_is_compensated_when_compensating_write_fails w topic reply
           StateStockReserved []).
  - reflexivity.
  - vm_compute; reflexivity.
  - reflexivity.
Defined.

(** X12.  Every message the orchestrator publishes is a command on the
    topic of the service that handles its type, or the event on
    pedido-saga-pedido-processado; in particular it never sends
    CANCEL_DELIVERY, the compensation the delivery service implements. *)
Theorem orchestrator_sends_routed_commands_only (w : World)
    (message : ConsumerMessage.t) :
  exists msgs,
    sent (consumeMessage message w).2 = (sent w ++ msgs)%list /\
    Forall routed msgs.
Proof.
  revert w. change (grows sent routed (consumeMessage message)).
  unfold_orquestrador. repeat grows_step.
  all: unfold routed, routes; simpl; rewrite ?elem_of_cons; auto 10.
Qed.

(** X13.  The reply of the order service to CANCEL_ORDER arrives on
    pedidos-reply with [Success = true], and the orchestrator reads it
    as the reply to VALIDATE_ORDER: whatever the state of the saga, it
    records ORDER_VALIDATED with an empty order id and sends
    RESERVE_STOCK with an empty payload. *)
Theorem cancelled_order_revives_the_saga (wp : Pedidos.World) (wo : World)
    (cmd : Command.t) (S : SagaState) :
  Command.CommandType cmd = "CANCEL_ORDER" ->
  db_faults wp = [] ->
  healthy wo ->
  latest_state (Command.SagaID cmd) (table wo) = Some S ->
  let reply := (Pedidos.processCommand cmd wp).1 in
  let wo' := (processReply "pedidos-reply" reply wo).2 in
  Reply.Success reply = true /\
  table wo' = (table wo ++
    [saga_events.mk (Command.SagaID cmd) "" StateOrderValidated (Some ∅) ""])%list /\
  sent wo' = (sent wo ++
    [ProducerMessage.mk "estoque-commands" None
       (WCommand (Command.mk (pretty (clock wo (ticks wo))) (Command.SagaID cmd) ""
                    "RESERVE_STOCK" (Some ∅) (clock wo (1 + ticks wo))))])%list.
Proof.
  intros Htype Hdbp [Hdb Hbus] Hlatest.
  destruct cmd as [cid sid oid ctype payload cts],
    wp as [clkp tksp fmtp rndp rlsp dbfp tblp busfp sntp mrkp lgsp].
  simpl in *; subst.
  assert (Hreply : (Pedidos.processCommand
            (Command.mk cid sid oid "CANCEL_ORDER" payload cts)
            (mkWorld clkp tksp fmtp rndp rlsp [] tblp busfp sntp mrkp lgsp)).1
          = Reply.mk (pretty (clkp tksp)) cid sid true "Pedido cancelado com sucesso"
              (Some ∅) (clkp (Datatypes.S tksp))).
  { reflexivity. }
  rewrite Hreply. split; [reflexivity|].
  unfold processReply, bind. cbn [Reply.SagaID].
  rewrite (getCurrentState_found wo sid S Hdb Hlatest).
  destruct wo as [clk tks fmt rnd rls dbf tbl busf snt mrk lgs].
  simpl in *; subst. hand_eval. auto.
Qed.

(** The same for the CANCEL_ORDER of the refused payment of
    [example_order]: the saga is FAILED when the reply arrives. *)
Lemma cancelled_order_revives_the_saga_witness :
  let wp := completed_pedidos in
  let wo := failed_world in
  let cmd := cancel_order_command in
  let reply := (Pedidos.processCommand cmd wp).1 in
  let wo' := (processReply "pedidos-reply" reply wo).2 in
  Reply.Success reply = true /\
  table wo' = (table wo ++
    [saga_events.mk (Command.SagaID cmd) "" StateOrderValidated (Some ∅) ""])%list /\
  sent wo' = (sent wo ++
    [ProducerMessage.mk "estoque-commands" None
       (WCommand (Command.mk (pretty (clock wo (ticks wo))) (Command.SagaID cmd) ""
                    "RESERVE_STOCK" (Some ∅) (clock wo (1 + ticks wo))))])%list.
Proof.
  intros wp wo cmd.
  apply (cancelled_order_revives_the_saga wp wo cmd StateFailed).
  - reflexivity.
  - reflexivity.
  - split; reflexivity.
  - vm_compute; reflexivity.
Defined.

End FailureFaults.

(** ** The participants' consumer loop *)

Section ParticipantLoop.
Context {Row : Type} (processCommand : Command.t -> M Row Reply.t)
  (replyTopic : string).
Hypothesis keeps_sent : forall cmd, grows sent (fun _ => False) (processCommand cmd).
Hypothesis keeps_marked : forall cmd, grows marked (fun _ => False) (processCommand cmd).
Hypothesis keeps_bus : forall cmd, grows bus_faults (fun _ => False) (processCommand cmd).

Lemma consumeCommand_replies_once (message : ConsumerMessage.t) (cmd : Command.t)
    (w : World Row) :
  json_Unmarshal_Command (ConsumerMessage.Value message) = inl cmd ->
  let w' := (consumeCommand processCommand (sendReplyOn replyTopic) message w).2 in
  sent w' = replied replyTopic (processCommand cmd w).1 w /\
  marked w' = (marked w ++ [message])%list /\
  table w' = table (processCommand cmd w).2.
Proof.
  intros Hcmd. unfold consumeCommand, replied. rewrite Hcmd.
  unfold bind, sendReplyOn, producer_SendMessage, session_MarkMessage.
  specialize (grows_nothing _ _ (keeps_sent cmd) w) as Hsent.
  specialize (grows_nothing _ _ (keeps_marked cmd) w) as Hmarked.
  specialize (grows_nothing _ _ (keeps_bus cmd) w) as Hbus.
  destruct (processCommand cmd w) as [reply w1]. simpl in *.
  rewrite Hbus. destruct (next_fault (bus_faults w)) as [[] rest]; simpl.
  all: by rewrite Hsent, Hmarked.
Qed.

End ParticipantLoop.

(** [processCommand] neither sends nor marks, and it does not use the
    producer. *)
Lemma participants_keep_their_channels (cmd : Command.t) :
  (grows sent (fun _ => False) (Pedidos.processCommand cmd) /\
   grows marked (fun _ => False) (Pedidos.processCommand cmd) /\
   grows bus_faults (fun _ => False) (Pedidos.processCommand cmd)) /\
  (grows sent (fun _ => False) (Estoque.processCommand cmd) /\
   grows marked (fun _ => False) (Estoque.processCommand cmd) /\
   grows bus_faults (fun _ => False) (Estoque.processCommand cmd)) /\
  (grows sent (fun _ => False) (Pagamentos.processCommand cmd) /\
   grows marked (fun _ => False) (Pagamentos.processCommand cmd) /\
   grows bus_faults (fun _ => False) (Pagamentos.processCommand cmd)) /\
  (grows sent (fun _ => False) (Entregas.processCommand cmd) /\
   grows marked (fun _ => False) (Entregas.processCommand cmd) /\
   grows bus_faults (fun _ => False) (Entregas.processCommand cmd)).
Proof.
  split; [|split; [|split]]; (split; [|split]).
  all: unfold_participants; repeat grows_step.
Qed.

Lemma participants_answer (cmd : Command.t) :
  yields (answers cmd) (Pedidos.processCommand cmd) /\
  yields (answers cmd) (Estoque.processCommand cmd) /\
  yields (answers cmd) (Pagamentos.processCommand cmd) /\
  yields (answers cmd) (Entregas.processCommand cmd).
Proof.
  split; [|split; [|split]].
  all: unfold_participants; repeat yields_step; split; reflexivity.
Qed.

(** X14.  Each participant answers a command once at most and marks it
    always: the reply of [processCommand] carries the command id and the
    saga id of the command, it is the only message sent, on the
    service's reply topic, and when the broker refuses it the reply is
    lost while the message is marked and the table keeps what
    [processCommand] wrote. *)
Theorem command_is_answered_once (message : ConsumerMessage.t) (cmd : Command.t)
    (wp : Pedidos.World) (we : Estoque.World) (wpg : Pagamentos.World)
    (wen : Entregas.World) :
  json_Unmarshal_Command (ConsumerMessage.Value message) = inl cmd ->
  (answers cmd (Pedidos.processCommand cmd wp).1 /\
   sent (Pedidos.consumeMessage message wp).2
     = replied "pedidos-reply" (Pedidos.processCommand cmd wp).1 wp /\
   marked (Pedidos.consumeMessage message wp).2 = (marked wp ++ [message])%list /\
   table (Pedidos.consumeMessage message wp).2 = table (Pedidos.processCommand cmd wp).2) /\
  (answers cmd (Estoque.processCommand cmd we).1 /\
   sent (Estoque.consumeMessage message we).2
     = replied "estoque-reply" (Estoque.processCommand cmd we).1 we /\
   marked (Estoque.consumeMessage message we).2 = (marked we ++ [message])%list /\
   table (Estoque.consumeMessage message we).2 = table (Estoque.processCommand cmd we).2) /\
  (answers cmd (Pagamentos.processCommand cmd wpg).1 /\
   sent (Pagamentos.consumeMessage message wpg).2
     = replied "pagamentos-reply" (Pagamentos.processCommand cmd wpg).1 wpg /\
   marked (Pagamentos.consumeMessage message wpg).2 = (marked wpg ++ [message])%list /\
   table (Pagamentos.consumeMessage message wpg).2
     = table (Pagamentos.processCommand cmd wpg).2) /\
  (answers cmd (Entregas.processCommand cmd wen).1 /\
   sent (Entregas.consumeMessage message wen).2
     = replied "entregas-reply" (Entregas.processCommand cmd wen).1 wen /\
   marked (Entregas.consumeMessage message wen).2 = (marked wen ++ [message])%list /\
   table (Entregas.consumeMessage message wen).2
     = table (Entregas.processCommand cmd wen).2).
Proof.
  intros Hcmd.
  destruct (participants_answer cmd) as (Hp & He & Hg & Hn).
  split; [|split; [|split]]; (split; [done|]).
  - apply (consumeCommand_replies_once Pedidos.processCommand "pedidos-reply");
      [intros cmd'; apply (participants_keep_their_channels cmd').. | exact Hcmd].
  - apply (consumeCommand_replies_once Estoque.processCommand "estoque-reply");
      [intros cmd'; apply (participants_keep_their_channels cmd').. | exact Hcmd].
  - apply (consumeCommand_replies_once Pagamentos.processCommand "pagamentos-reply");
      [intros cmd'; apply (participants_keep_their_channels cmd').. | exact Hcmd].
  - apply (consumeCommand_replies_once Entregas.processCommand "entregas-reply");
      [intros cmd'; apply (participants_keep_their_channels cmd').. | exact Hcmd].
Qed.

(** The same for the RESERVE_STOCK command of [example_order], handed to
    each participant at start-up. *)
Lemma command_is_answered_once_witness :
  let message := example_command_message "estoque-commands" "RESERVE_STOCK" in
  let cmd := example_command "RESERVE_STOCK" in
  let wp : Pedidos.World := example_boot 1 in
  let we : Estoque.World := example_boot 2 in
  let wpg : Pagamentos.World := example_boot 3 in
  let wen : Entregas.World := example_boot 4 in
  (answers cmd (Pedidos.processCommand cmd wp).1 /\
   sent (Pedidos.consumeMessage message wp).2
     = replied "pedidos-reply" (Pedidos.processCommand cmd wp).1 wp /\
   marked (Pedidos.consumeMessage message wp).2 = (marked wp ++ [message])%list /\
   table (Pedidos.consumeMessage message wp).2 = table (Pedidos.processCommand cmd wp).2) /\
  (answers cmd (Estoque.processCommand cmd we).1 /\
   sent (Estoque.consumeMessage message we).2
     = replied "estoque-reply" (Estoque.processCommand cmd we).1 we /\
   marked (Estoque.consumeMessage message we).2 = (marked we ++ [message])%list /\
   table (Estoque.consumeMessage message we).2 = table (Estoque.processCommand cmd we).2) /\
  (answers cmd (Pagamentos.processCommand cmd wpg).1 /\
   sent (Pagamentos.consumeMessage message wpg).2
     = replied "pagamentos-reply" (Pagamentos.processCommand cmd wpg).1 wpg /\
   marked (Pagamentos.consumeMessage message wpg).2 = (marked wpg ++ [message])%list /\
   table (Pagamentos.consumeMessage message wpg).2
     = table (Pagamentos.processCommand cmd wpg).2) /\
  (answers cmd (Entregas.processCommand cmd wen).1 /\
   sent (Entregas.consumeMessage message wen).2
     = replied "entregas-reply" (Entregas.processCommand cmd wen).1 wen /\
   marked (Entregas.consumeMessage message wen).2 = (marked wen ++ [message])%list /\
   table (Entregas.consumeMessage message wen).2
     = table (Entregas.processCommand cmd wen).2).
Proof.
  intros message cmd wp we wpg wen.
  apply (command_is_answered_once message cmd wp we wpg wen). reflexivity.
Defined.

(** ** What each forward command does *)

Section Outcomes.

(** X15.  For a command whose quantity is a whole number and whose
    order the table takes (the column types, an id that is new),
    VALIDATE_ORDER stores the order under a new id, the clock reading,
    whatever order id the command names; the fields come from the
    payload, with defaults for what is missing or of another type.  The
    reply says success exactly when the insert succeeds, and its data is
    built from the stored order: the five fields, the new id as
    [order_id]. *)
Theorem order_is_stored_under_a_new_id (w : Pedidos.World) (cmd : Command.t) :
  Command.CommandType cmd = "VALIDATE_ORDER" ->
  whole (index (Command.Payload cmd) "quantity") = true ->
  orders_accepts (table w) (validated_order w cmd 2) = true ->
  let ok := negb (next_fault (db_faults w)).1 in
  let id := pretty (clock w (2 + ticks w)) in
  let customer := getStringFromPayload (Command.Payload cmd) "customer_id" "CUST-001" in
  let product := getStringFromPayload (Command.Payload cmd) "product_id" "PROD-001" in
  let quantity := getIntFromPayload (Command.Payload cmd) "quantity" 1 in
  let amount := getFloatFromPayload (Command.Payload cmd) "total_amount" 100 in
  let reply := (Pedidos.processCommand cmd w).1 in
  Reply.Success reply = ok /\
  Reply.Message reply
    = (if ok then "Pedido validado com sucesso" else "Falha ao validar pedido") /\
  table (Pedidos.processCommand cmd w).2 =
    (if ok
     then (table w ++ [Pedidos.orders.mk id (Command.SagaID cmd) customer product
                         quantity amount "VALIDATED"])%list
     else table w) /\
  Reply.Data reply =
    Some (if ok
          then <["total_amount" := VNum amount]>
               (<["quantity" := VInt quantity]>
               (<["product_id" := VStr product]>
               (<["customer_id" := VStr customer]>
               (<["order_id" := VStr id]> ∅))))
          else ∅).
Proof.
  intros Htype _ _.
  destruct w as [clk tks fmt rnd rls dbf tbl busf snt mrk lgs],
    cmd as [cid sid oid ctype payload cts].
  simpl in *; subst.
  destruct dbf as [|[] rest]; data_eval; auto.
Qed.

(** The same for a VALIDATE_ORDER command of [example_order]. *)
Lemma order_is_stored_under_a_new_id_witness :
  let w : Pedidos.World := example_boot 1 in
  let cmd := example_command "VALIDATE_ORDER" in
  let ok := negb (next_fault (db_faults w)).1 in
  let id := pretty (clock w (2 + ticks w)) in
  let customer := getStringFromPayload (Command.Payload cmd) "customer_id" "CUST-001" in
  let product := getStringFromPayload (Command.Payload cmd) "product_id" "PROD-001" in
  let quantity := getIntFromPayload (Command.Payload cmd) "quantity" 1 in
  let amount := getFloatFromPayload (Command.Payload cmd) "total_amount" 100 in
  let reply := (Pedidos.processCommand cmd w).1 in
  Reply.Success reply = ok /\
  Reply.Message reply
    = (if ok then "Pedido validado com sucesso" else "Falha ao validar pedido") /\
  table (Pedidos.processCommand cmd w).2 =
    (if ok
     then (table w ++ [Pedidos.orders.mk id (Command.SagaID cmd) customer product
                         quantity amount "VALIDATED"])%list
     else table w) /\
  Reply.Data reply =
    Some (if ok
          then <["total_amount" := VNum amount]>
               (<["quantity" := VInt quantity]>
               (<["product_id" := VStr product]>
               (<["customer_id" := VStr customer]>
               (<["order_id" := VStr id]> ∅))))
          else ∅).
Proof.
  intros w cmd. apply (order_is_stored_under_a_new_id w cmd); reflexivity.
Defined.

(** X16.  For a command whose quantity is a whole number and whose
    reservation the table takes (the column types, an id that is new),
    RESERVE_STOCK succeeds exactly when the draw is 10 or more and the
    insert succeeds; then one RESERVED row is appended (product and
    quantity from the payload, PROD-001 and 1 by default) and the reply
    adds [reservation_id] to the payload.  Otherwise the table is as
    before and the reply says "Estoque insuficiente", also when it was
    the database that failed. *)
Theorem stock_is_reserved_unless_draw_or_insert_fails (w : Estoque.World)
    (cmd : Command.t) :
  Command.CommandType cmd = "RESERVE_STOCK" ->
  whole (index (Command.Payload cmd) "quantity") = true ->
  stock_reservations_accepts (table w)
    (Estoque.stock_reservations.mk (pretty (clock w (2 + ticks w)))
       (Command.SagaID cmd)
       (getStringFromPayload (Command.Payload cmd) "product_id" "PROD-001")
       (getIntFromPayload (Command.Payload cmd) "quantity" 1) "RESERVED") = true ->
  let ok := negb (rand w (rolls w) <? 10)%Z && negb (next_fault (db_faults w)).1 in
  let id := pretty (clock w (2 + ticks w)) in
  let reply := (Estoque.processCommand cmd w).1 in
  Reply.Success reply = ok /\
  Reply.Message reply
    = (if ok then "Estoque reservado com sucesso" else "Estoque insuficiente") /\
  table (Estoque.processCommand cmd w).2 =
    (if ok
     then (table w ++
       [Estoque.stock_reservations.mk id (Command.SagaID cmd)
          (getStringFromPayload (Command.Payload cmd) "product_id" "PROD-001")
          (getIntFromPayload (Command.Payload cmd) "quantity" 1) "RESERVED"])%list
     else table w) /\
  Reply.Data reply =
    Some (if ok then <["reservation_id" := VStr id]> (entries (Command.Payload cmd))
          else entries (Command.Payload cmd)).
Proof.
  intros Htype _ _.
  destruct w as [clk tks fmt rnd rls dbf tbl busf snt mrk lgs],
    cmd as [cid sid oid ctype [payload|] cts].
  all: simpl in *; subst.
  all: destruct (rnd rls <? 10)%Z eqn:Hdraw; destruct dbf as [|[] rest].
  all: data_eval; rewrite ?Hdraw; data_eval.
  all: rewrite ?(right_id_L ∅ (∪)); auto.
Qed.

(** The same for the RESERVE_STOCK command of [example_order]. *)
Lemma stock_is_reserved_unless_draw_or_insert_fails_witness :
  let w : Estoque.World := example_boot 2 in
  let cmd := example_command "RESERVE_STOCK" in
  let ok := negb (rand w (rolls w) <? 10)%Z && negb (next_fault (db_faults w)).1 in
  let id := pretty (clock w (2 + ticks w)) in
  let reply := (Estoque.processCommand cmd w).1 in
  Reply.Success reply = ok /\
  Reply.Message reply
    = (if ok then "Estoque reservado com sucesso" else "Estoque insuficiente") /\
  table (Estoque.processCommand cmd w).2 =
    (if ok
     then (table w ++
       [Estoque.stock_reservations.mk id (Command.SagaID cmd)
          (getStringFromPayload (Command.Payload cmd) "product_id" "PROD-001")
          (getIntFromPayload (Command.Payload cmd) "quantity" 1) "RESERVED"])%list
     else table w) /\
  Reply.Data reply =
    Some (if ok then <["reservation_id" := VStr id]> (entries (Command.Payload cmd))
          else entries (Command.Payload cmd)).
Proof.
  intros w cmd.
  apply (stock_is_reserved_unless_draw_or_insert_fails w cmd); reflexivity.
Defined.



(** X18.  SCHEDULE_DELIVERY draws nothing: it fails only when the insert
    fails.  The delivery is scheduled 48 hours after the clock reading at
    the start of [scheduleDelivery], with the tracking number
    TRK-<seconds> and the address of the payload ("Rua Exemplo, 123" by
    default), and the reply adds [delivery_id], [tracking_number] and
    the formatted [scheduled_date] to the payload. *)
Theorem delivery_is_scheduled_two_days_ahead (w : Entregas.World) (cmd : Command.t) :
  Command.CommandType cmd = "SCHEDULE_DELIVERY" ->
  let ok := negb (next_fault (db_faults w)).1 in
  let date := Add_48h (clock w (2 + ticks w)) in
  let id := pretty (clock w (3 + ticks w)) in
  let tracking := "TRK-" +:+ pretty (Unix (clock w (4 + ticks w))) in
  let reply := (Entregas.processCommand cmd w).1 in
  Reply.Success reply = ok /\
  Reply.Message reply
    = (if ok then "Entrega agendada com sucesso" else "Falha ao agendar entrega") /\
  table (Entregas.processCommand cmd w).2 =
    (if ok
     then (table w ++
       [Entregas.deliveries.mk id (Command.SagaID cmd)
          (getStringFromPayload (Command.Payload cmd) "order_id" "")
          (getStringFromPayload (Command.Payload cmd) "address" "Rua Exemplo, 123")
          date "SCHEDULED" tracking])%list
     else table w) /\
  Reply.Data reply =
    Some (if ok
          then <["scheduled_date" := VStr (rfc3339 w date)]>
               (<["tracking_number" := VStr tracking]>
               (<["delivery_id" := VStr id]> (entries (Command.Payload cmd))))
          else entries (Command.Payload cmd)).
Proof.
  intros Htype.
  destruct w as [clk tks fmt rnd rls dbf tbl busf snt mrk lgs],
    cmd as [cid sid oid ctype [payload|] cts].
  all: simpl in *; subst.
  all: destruct dbf as [|[] rest].
  all: data_eval; rewrite ?(right_id_L ∅ (∪)); auto.
Qed.

(** The same for a SCHEDULE_DELIVERY command of [example_order]. *)
Lemma delivery_is_scheduled_two_days_ahead_witness :
  let w : Entregas.World := example_boot 4 in
  let cmd := example_command "SCHEDULE_DELIVERY" in
  let ok := negb (next_fault (db_faults w)).1 in
  let date := Add_48h (clock w (2 + ticks w)) in
  let id := pretty (clock w (3 + ticks w)) in
  let tracking := "TRK-" +:+ pretty (Unix (clock w (4 + ticks w))) in
  let reply := (Entregas.processCommand cmd w).1 in
  Reply.Success reply = ok /\
  Reply.Message reply
    = (if ok then "Entrega agendada com sucesso" else "Falha ao agendar entrega") /\
  table (Entregas.processCommand cmd w).2 =
    (if ok
     then (table w ++
       [Entregas.deliveries.mk id (Command.SagaID cmd)
          (getStringFromPayload (Command.Payload cmd) "order_id" "")
          (getStringFromPayload (Command.Payload cmd) "address" "Rua Exemplo, 123")
          date "SCHEDULED" tracking])%list
     else table w) /\
  Reply.Data reply =
    Some (if ok
          then <["scheduled_date" := VStr (rfc3339 w date)]>
               (<["tracking_number" := VStr tracking]>
               (<["delivery_id" := VStr id]> (entries (Command.Payload cmd))))
          else entries (Command.Payload cmd)).
Proof.
  intros w cmd. apply (delivery_is_scheduled_two_days_ahead w cmd). reflexivity.
Defined.

End Outcomes.

(** ** The payload on its way through the participants *)

Lemma copyPayload_entries (payload : GoMap) : copyPayload payload ∅ = entries payload.
Proof. destruct payload; simpl; [apply (right_id_L ∅ (∪)) | reflexivity]. Qed.

Lemma index_entries (payload : GoMap) (key : string) :
  entries payload !! key = index payload key.
Proof. by destruct payload. Qed.

(** X19.  The stock, the payment and the delivery service pass the
    payload on: whatever the command (forward, compensation or unknown),
    its outcome and the faults, the data of the reply has every entry of
    the command's payload, but for the keys the service adds itself. *)
Theorem payload_is_passed_on (cmd : Command.t) (we : Estoque.World)
    (wpg : Pagamentos.World) (wen : Entregas.World) :
  passes_payload stock_keys cmd (Estoque.processCommand cmd we).1 /\
  passes_payload payment_keys cmd (Pagamentos.processCommand cmd wpg).1 /\
  passes_payload delivery_keys cmd (Entregas.processCommand cmd wen).1.
Proof.
  split; [|split].
  - revert we. change (yields (passes_payload stock_keys cmd) (Estoque.processCommand cmd)).
    unfold_participants. repeat yields_step.
    all: intros key Hkey; simpl; rewrite copyPayload_entries.
    all: unfold stock_keys in Hkey; rewrite ?elem_of_cons, elem_of_nil in Hkey.
    all: rewrite ?lookup_insert_ne by naive_solver; apply index_entries.
  - revert wpg.
    change (yields (passes_payload payment_keys cmd) (Pagamentos.processCommand cmd)).
    unfold_participants. repeat yields_step.
    all: intros key Hkey; simpl; rewrite copyPayload_entries.
    all: unfold payment_keys in Hkey; rewrite ?elem_of_cons, elem_of_nil in Hkey.
    all: rewrite ?lookup_insert_ne by naive_solver; apply index_entries.
  - revert wen.
    change (yields (passes_payload delivery_keys cmd) (Entregas.processCommand cmd)).
    unfold_participants. repeat yields_step.
    all: intros key Hkey; simpl; rewrite copyPayload_entries.
    all: unfold delivery_keys in Hkey; rewrite ?elem_of_cons, elem_of_nil in Hkey.
    all: rewrite ?lookup_insert_ne by naive_solver; apply index_entries.
Qed.

(** X20.  What the later services read in the reply of the order
    service: the getters find the order's id, customer, product,
    quantity and amount there, whatever default they are called with; the
    quantity comes back as the integer the order service stored, and a
    field the ingress payload lacked comes back as the order service's
    default, not as the reader's. *)
Theorem order_fields_read_back (w : Pedidos.World) (cmd : Command.t)
    (anyString : string) (anyInt : Z) (anyFloat : Q) :
  Command.CommandType cmd = "VALIDATE_ORDER" ->
  db_faults w = [] ->
  let data := Reply.Data (Pedidos.processCommand cmd w).1 in
  getStringFromPayload data "order_id" anyString = pretty (clock w (2 + ticks w)) /\
  getStringFromPayload data "customer_id" anyString
    = getStringFromPayload (Command.Payload cmd) "customer_id" "CUST-001" /\
  getStringFromPayload data "product_id" anyString
    = getStringFromPayload (Command.Payload cmd) "product_id" "PROD-001" /\
  getIntFromPayload data "quantity" anyInt
    = getIntFromPayload (Command.Payload cmd) "quantity" 1 /\
  getFloatFromPayload data "total_amount" anyFloat
    = getFloatFromPayload (Command.Payload cmd) "total_amount" 100.
Proof.
  intros Htype Hdb.
  destruct w as [clk tks fmt rnd rls dbf tbl busf snt mrk lgs],
    cmd as [cid sid oid ctype payload cts].
  simpl in *; subst.
  set (customer := getStringFromPayload payload "customer_id" "CUST-001").
  set (product := getStringFromPayload payload "product_id" "PROD-001").
  set (quantity := getIntFromPayload payload "quantity" 1).
  set (amount := getFloatFromPayload payload "total_amount" 100).
  assert (Hdata : Reply.Data (Pedidos.processCommand
              (Command.mk cid sid oid "VALIDATE_ORDER" payload cts)
              (mkWorld clk tks fmt rnd rls [] tbl busf snt mrk lgs)).1
            = Some (<["total_amount" := VNum amount]>
                   (<["quantity" := VInt quantity]>
                   (<["product_id" := VStr product]>
                   (<["customer_id" := VStr customer]>
                   (<["order_id" := VStr (pretty (clk (2 + tks)))]> ∅)))))).
  { reflexivity. }
  rewrite Hdata.
  unfold getStringFromPayload, getIntFromPayload, getFloatFromPayload, index.
  repeat split.
  all: repeat (rewrite lookup_insert_ne by done).
  all: rewrite ?lookup_insert_eq; try reflexivity.
  simpl. unfold int_of_float64. simpl. apply Z.quot_1_r.
Qed.

(** The same for a VALIDATE_ORDER command of [example_order], read with
    the defaults of the payment service. *)
Lemma order_fields_read_back_witness :
  let w : Pedidos.World := example_boot 1 in
  let cmd := example_command "VALIDATE_ORDER" in
  let anyString := "" in
  let anyInt := 0%Z in
  let anyFloat := 0%Q in
  let data := Reply.Data (Pedidos.processCommand cmd w).1 in
  getStringFromPayload data "order_id" anyString = pretty (clock w (2 + ticks w)) /\
  getStringFromPayload data "customer_id" anyString
    = getStringFromPayload (Command.Payload cmd) "customer_id" "CUST-001" /\
  getStringFromPayload data "product_id" anyString
    = getStringFromPayload (Command.Payload cmd) "product_id" "PROD-001" /\
  getIntFromPayload data "quantity" anyInt
    = getIntFromPayload (Command.Payload cmd) "quantity" 1 /\
  getFloatFromPayload data "total_amount" anyFloat
    = getFloatFromPayload (Command.Payload cmd) "total_amount" 100.
Proof.
  intros w cmd anyString anyInt anyFloat.
  apply (order_fields_read_back w cmd anyString anyInt anyFloat); reflexivity.
Defined.

(** ** Compensations and redelivery on the participants' tables *)

(** [UPDATE t SET status = value WHERE saga_id = $1] and the rows of the
    other sagas. *)
Lemma update_where_scope {Row : Type} (saga_id : Row -> string) (set : Row -> Row)
    (w : World Row) (sagaID : string) :
  let stmt := map (fun r => if String.eqb (saga_id r) sagaID then set r else r) in
  spares_other_sagas saga_id sagaID (table w) (table (db_Exec stmt w).2).
Proof.
  intros stmt. unfold db_Exec.
  destruct (next_fault (db_faults w)) as [[] rest]; simpl.
  - split; [reflexivity | auto].
  - split; [apply length_map|].
    intros i r Hr Hid. unfold stmt.
    change (map ?f ?l) with (f <$> l).
    rewrite list_lookup_fmap, Hr. simpl.
    apply String.eqb_neq in Hid. by rewrite Hid.
Qed.

(** X21.  A compensation touches the rows of its saga only: whatever the
    table and the faults, [cancelOrder], [releaseStock], [cancelPayment]
    and [cancelDelivery] keep the number of rows and leave every row of
    another saga unchanged in its place. *)
Theorem compensation_spares_other_sagas (sagaID : string) (wp : Pedidos.World)
    (we : Estoque.World) (wpg : Pagamentos.World) (wen : Entregas.World) :
  spares_other_sagas Pedidos.orders.saga_id sagaID
    (table wp) (table (Pedidos.cancelOrder sagaID wp).2) /\
  spares_other_sagas Estoque.stock_reservations.saga_id sagaID
    (table we) (table (Estoque.releaseStock sagaID we).2) /\
  spares_other_sagas Pagamentos.payments.saga_id sagaID
    (table wpg) (table (Pagamentos.cancelPayment sagaID wpg).2) /\
  spares_other_sagas Entregas.deliveries.saga_id sagaID
    (table wen) (table (Entregas.cancelDelivery sagaID wen).2).
Proof.
  split; [|split; [|split]]; apply update_where_scope.
Qed.

(** X22.  The order service does not recognise a command it has already
    carried out.  When the clock has advanced between the two readings
    of the id, the quantity is a whole number and the table takes both
    orders, VALIDATE_ORDER delivered twice to a healthy service stores
    two orders of the same saga under two different ids and answers
    success twice. *)
Theorem redelivered_order_is_stored_twice (w : Pedidos.World)
    (message : ConsumerMessage.t) (cmd : Command.t) :
  json_Unmarshal_Command (ConsumerMessage.Value message) = inl cmd ->
  Command.CommandType cmd = "VALIDATE_ORDER" ->
  healthy w ->
  clock w (2 + ticks w) <> clock w (6 + ticks w) ->
  whole (index (Command.Payload cmd) "quantity") = true ->
  orders_accepts (table w) (validated_order w cmd 2) = true ->
  orders_accepts (table w) (validated_order w cmd 6) = true ->
  let w2 := (Pedidos.ConsumeClaim [message; message] w).2 in
  table w2 = (table w ++ [validated_order w cmd 2; validated_order w cmd 6])%list /\
  Pedidos.orders.id (validated_order w cmd 2)
    <> Pedidos.orders.id (validated_order w cmd 6) /\
  exists reply1 reply2,
    sent w2 = (sent w ++ [ProducerMessage.mk "pedidos-reply" None (WReply reply1);
                          ProducerMessage.mk "pedidos-reply" None (WReply reply2)])%list /\
    Reply.Success reply1 = true /\ Reply.Success reply2 = true.
Proof.
  intros Hcmd Htype [Hdb Hbus] Hclock _ _ _.
  assert (Hids : Pedidos.orders.id (validated_order w cmd 2)
                 <> Pedidos.orders.id (validated_order w cmd 6)).
  { simpl. intros Hid. apply Hclock. by apply (inj pretty). }
  split; [|split; [exact Hids|]]; clear Hids Hclock.
  all: destruct message as [topic key body]; simpl in Hcmd.
  all: destruct body as [|c| |]; try discriminate; injection Hcmd as ->.
  all: destruct w as [clk tks fmt rnd rls dbf tbl busf snt mrk lgs],
         cmd as [cid sid oid ctype payload cts].
  all: simpl in *; subst; data_eval.
  - rewrite <- !app_assoc. reflexivity.
  - eexists _, _. rewrite <- !app_assoc. simpl. repeat split.
Qed.

(** The same for a VALIDATE_ORDER command of [example_order]. *)
Lemma redelivered_order_is_stored_twice_witness :
  let w : Pedidos.World := example_boot 1 in
  let message := example_command_message "pedidos-commands" "VALIDATE_ORDER" in
  let cmd := example_command "VALIDATE_ORDER" in
  let w2 := (Pedidos.ConsumeClaim [message; message] w).2 in
  table w2 = (table w ++ [validated_order w cmd 2; validated_order w cmd 6])%list /\
  Pedidos.orders.id (validated_order w cmd 2)
    <> Pedidos.orders.id (validated_order w cmd 6) /\
  exists reply1 reply2,
    sent w2 = (sent w ++ [ProducerMessage.mk "pedidos-reply" None (WReply reply1);
                          ProducerMessage.mk "pedidos-reply" None (WReply reply2)])%list /\
    Reply.Success reply1 = true /\ Reply.Success reply2 = true.
Proof.
  intros w message cmd.
  apply (redelivered_order_is_stored_twice w message cmd);
    [reflexivity | reflexivity | split; reflexivity | vm_compute; lia
    | reflexivity | reflexivity | reflexivity].
Defined.

(** ** Start-up *)

Section StartupProperties.
Import Startup.

Lemma retry_succeeds (k : nat) : forall (remaining i : nat) (db : string)
    (h : Host) (rest : list bool),
  (k < remaining)%nat ->
  pings h = (replicate k true ++ false :: rest)%list ->
  retry remaining (Z.of_nat i) db h =
    (inl db,
     mkHost (environ h) (sql_Open h) rest (slept h + 2 * Z.of_nat k)%Z
       (output h ++ (waiting_line <$> seq (1 + i) k)
          ++ ["Conectado ao banco de dados"])).
Proof.
  induction k as [|k IH]; intros remaining i db h rest Hk Hpings.
  - destruct remaining as [|remaining]; [lia|].
    destruct h as [env open png slp out]. simpl in *; subst. simpl.
    by rewrite Z.add_0_r.
  - destruct remaining as [|remaining]; [lia|].
    destruct h as [env open png slp out]. simpl in *; subst. simpl.
    replace (Z.of_nat i + 1)%Z with (Z.of_nat (S i)) by lia.
    rewrite (IH remaining (S i) db _ rest) by (simpl; first [lia | reflexivity]).
    simpl. f_equal. f_equal; [lia|].
    rewrite <- app_assoc. reflexivity.
Qed.

Lemma retry_gives_up (remaining : nat) : forall (i : nat) (db : string) (h : Host),
  take remaining (pings h) = replicate remaining true ->
  retry remaining (Z.of_nat i) db h =
    (inr "timeout ao conectar no banco",
     mkHost (environ h) (sql_Open h) (drop remaining (pings h))
       (slept h + 2 * Z.of_nat remaining)%Z
       (output h ++ (waiting_line <$> seq (1 + i) remaining))).
Proof.
  induction remaining as [|remaining IH]; intros i db h Hpings.
  - destruct h as [env open png slp out]. simpl.
    by rewrite Z.add_0_r, app_nil_r, drop_0.
  - destruct h as [env open png slp out]. simpl in *.
    destruct png as [|[] png]; try discriminate. simpl.
    injection Hpings as Hpings.
    replace (Z.of_nat i + 1)%Z with (Z.of_nat (S i)) by lia.
    rewrite (IH (S i) db _) by exact Hpings.
    simpl. f_equal. f_equal; [lia|].
    rewrite <- app_assoc. reflexivity.
Qed.

(** X23.  [connectDB] waits for the database: when the first [k] pings
    fail and the next one succeeds, with [k] below 30, it returns the
    handle after [k + 1] pings, having slept two seconds and logged one
    numbered line after each failed ping. *)
Theorem connectDB_waits_for_the_database (h : Host) (k : nat) (rest : list bool) :
  sql_Open h (psqlInfo h) = None ->
  (k < 30)%nat ->
  pings h = (replicate k true ++ false :: rest)%list ->
  connectDB h =
    (inl (psqlInfo h),
     mkHost (environ h) (sql_Open h) rest (slept h + 2 * Z.of_nat k)%Z
       (output h ++ (waiting_line <$> seq 1 k) ++ ["Conectado ao banco de dados"])).
Proof.
  intros Hopen Hk Hpings. unfold connectDB. rewrite Hopen.
  by apply (retry_succeeds k 30 0).
Qed.

(** The same for a database that answers the third ping. *)
Lemma connectDB_waits_for_the_database_witness :
  let h := slow_database in
  let k := 2%nat in
  let rest := @nil bool in
  connectDB h =
    (inl (psqlInfo h),
     mkHost (environ h) (sql_Open h) rest (slept h + 2 * Z.of_nat k)%Z
       (output h ++ (waiting_line <$> seq 1 k) ++ ["Conectado ao banco de dados"])).
Proof.
  intros h k rest.
  apply (connectDB_waits_for_the_database h k rest); [reflexivity | lia | reflexivity].
Defined.

(** X24.  [connectDB] gives up after 30 pings: when the first 30 pings
    fail it returns the error "timeout ao conectar no banco" after
    exactly 30 pings, 60 seconds of sleep and 30 numbered lines; the
    last sleep comes after the last ping, and no further ping follows. *)
Theorem connectDB_gives_up_after_30_pings (h : Host) :
  sql_Open h (psqlInfo h) = None ->
  take 30 (pings h) = replicate 30 true ->
  connectDB h =
    (inr "timeout ao conectar no banco",
     mkHost (environ h) (sql_Open h) (drop 30 (pings h)) (slept h + 60)%Z
       (output h ++ (waiting_line <$> seq 1 30))).
Proof.
  intros Hopen Hpings. unfold connectDB. rewrite Hopen.
  by apply (retry_gives_up 30 0).
Qed.

(** The same for a database that fails thirty-one pings. *)
Lemma connectDB_gives_up_after_30_pings_witness :
  let h := absent_database in
  connectDB h =
    (inr "timeout ao conectar no banco",
     mkHost (environ h) (sql_Open h) (drop 30 (pings h)) (slept h + 60)%Z
       (output h ++ (waiting_line <$> seq 1 30))).
Proof.
  intros h. apply (connectDB_gives_up_after_30_pings h); reflexivity.
Defined.

End StartupProperties.

(** ** A failed saga on its way to COMPLETED *)

(** CANCEL_ORDER on a table that holds the order of that saga only. *)
Lemma single_order_is_cancelled (clk : nat -> time_Time) (tks : nat)
    (fmt : time_Time -> string) (rnd : nat -> Z) (rls : nat)
    (snt : list ProducerMessage.t) (mrk : list ConsumerMessage.t) (lgs : list string)
    (topic : string) (key : option string) (cid sid oid : string) (payload : GoMap)
    (ts : time_Time) (id customer product : string) (quantity : Z) (amount : Q)
    (status : string) :
  Pedidos.ConsumeClaim
    [ConsumerMessage.mk topic key
       (WCommand (Command.mk cid sid oid "CANCEL_ORDER" payload ts))]
    (mkWorld clk tks fmt rnd rls []
       [Pedidos.orders.mk id sid customer product quantity amount status]
       [] snt mrk lgs) =
  (None,
   mkWorld clk (S (S tks)) fmt rnd rls []
     [Pedidos.orders.mk id sid customer product quantity amount "CANCELLED"] []
     (snt ++ [ProducerMessage.mk "pedidos-reply" None
                (WReply (Reply.mk (pretty (clk tks)) cid sid true
                           "Pedido cancelado com sucesso" (Some ∅) (clk (S tks))))])
     (mrk ++ [ConsumerMessage.mk topic key
                (WCommand (Command.mk cid sid oid "CANCEL_ORDER" payload ts))])
     lgs).
Proof.
  cbv -[String.eqb pretty app String.append insert union empty lookup
        map_insert gmap_partial_alter gmap_lookup gmap_empty map_union
        gmap_merge pretty_Z String.countable String.eq_dec].
  cbn [String.eqb Ascii.eqb Bool.eqb]. rewrite String.eqb_refl. reflexivity.
Qed.

(** Evaluate the delivery of the message at [offset]; [tac] rewrites the
    call of the handler. *)
Ltac deliver_by offset tac :=
  lazymatch goal with
  | |- context [deliver offset ?c] =>
      let E := fresh "E" in
      let c' := fresh "c" in
      evar (c' : Cluster);
      assert (E : deliver offset c = c')
        by (unfold deliver; run_eval; tac; run_eval; subst c'; reflexivity);
      rewrite E; subst c'; clear E
  end.

(** X25.  A saga that failed is driven on by the replies to its own
    compensations.  On the run of an order through five healthy
    processes in which the stock service refuses the first reservation
    and no later draw asks for a failure, the orchestrator records
    FAILED, the order is cancelled, and the reply to CANCEL_ORDER then
    restarts the forward path: the events end with ORDER_VALIDATED,
    STOCK_RESERVED, PAYMENT_PROCESSED and COMPLETED, with stock
    reserved, a payment of amount 0 approved and a delivery scheduled
    for the cancelled order. *)
Theorem failed_saga_is_completed_by_its_compensation
    (co cp ce cpg cen : nat -> time_Time)
    (fo fp fe fpg fen : time_Time -> string)
    (ro rp re rpg ren : nat -> Z) (orderData : gmap string Value) :
  (re 0%nat < 10)%Z -> (10 <= re 1%nat)%Z -> (5 <= rpg 0%nat)%Z ->
  let c := run revival_schedule
             (submit (boot co fo ro) (boot cp fp rp) (boot ce fe re)
                (boot cpg fpg rpg) (boot cen fen ren) orderData) in
  Orquestrador.saga_events.state <$> table (orquestrador c)
    = [Orquestrador.StatePending; Orquestrador.StateOrderValidated;
       Orquestrador.StateCompensating; Orquestrador.StateFailed;
       Orquestrador.StateOrderValidated; Orquestrador.StateStockReserved;
       Orquestrador.StatePaymentProcessed; Orquestrador.StateCompleted] /\
  commandTypes (broker c)
    = [("pedidos-commands", "VALIDATE_ORDER"); ("estoque-commands", "RESERVE_STOCK");
       ("pedidos-commands", "CANCEL_ORDER"); ("estoque-commands", "RESERVE_STOCK");
       ("pagamentos-commands", "PROCESS_PAYMENT");
       ("entregas-commands", "SCHEDULE_DELIVERY")] /\
  Pedidos.orders.status <$> table (pedidos c) = ["CANCELLED"] /\
  Estoque.stock_reservations.status <$> table (estoque c) = ["RESERVED"] /\
  Pagamentos.payments.status <$> table (pagamentos c) = ["APPROVED"] /\
  Pagamentos.payments.amount <$> table (pagamentos c) = [0%Q] /\
  Entregas.deliveries.status <$> table (entregas c) = ["SCHEDULED"].
Proof.
  intros Hre0 Hre1 Hrpg c. subst c.
  apply Z.ltb_lt in Hre0. apply Z.ltb_ge in Hre1, Hrpg.
  unfold run, revival_schedule. cbn [seq foldl].
  unfold submit, boot.
  destruct (assertString (orderData !! "order_id")) as [orderID|] eqn:Hid;
    run_eval_in Hid.
  all: deliver_to 0 Orquestrador.ConsumeClaim ltac:(rewrite Hid; run_eval).
  all: deliver_to 1 Pedidos.ConsumeClaim ltac:(idtac).
  all: deliver_to 2 Orquestrador.ConsumeClaim ltac:(current_state).
  all: deliver_to 3 Estoque.ConsumeClaim ltac:(rewrite Hre0; run_eval).
  all: deliver_to 4 Orquestrador.ConsumeClaim ltac:(current_state).
  all: deliver_by 5 ltac:(rewrite single_order_is_cancelled).
  all: deliver_to 6 Orquestrador.ConsumeClaim ltac:(current_state).
  all: deliver_to 7 Estoque.ConsumeClaim ltac:(rewrite Hre1; run_eval).
  all: deliver_to 8 Orquestrador.ConsumeClaim ltac:(current_state).
  all: deliver_to 9 Pagamentos.ConsumeClaim ltac:(rewrite Hrpg; run_eval).
  all: deliver_to 10 Orquestrador.ConsumeClaim ltac:(current_state).
  all: deliver_to 11 Entregas.ConsumeClaim ltac:(idtac).
  all: deliver_to 12 Orquestrador.ConsumeClaim ltac:(current_state).
  all: cbn [orquestrador pedidos estoque pagamentos entregas broker table].
  all: repeat split; reflexivity.
Qed.

(** The same at the run of [example_order] with a stock service that
    refuses the first reservation. *)
Lemma failed_saga_is_completed_by_its_compensation_witness :
  let c := run revival_schedule
             (submit (boot (example_clock 0) pretty (fun _ => 50%Z))
                (boot (example_clock 1) pretty (fun _ => 50%Z))
                (boot (example_clock 2) pretty refuse_first)
                (boot (example_clock 3) pretty (fun _ => 50%Z))
                (boot (example_clock 4) pretty (fun _ => 50%Z)) example_order) in
  Orquestrador.saga_events.state <$> table (orquestrador c)
    = [Orquestrador.StatePending; Orquestrador.StateOrderValidated;
       Orquestrador.StateCompensating; Orquestrador.StateFailed;
       Orquestrador.StateOrderValidated; Orquestrador.StateStockReserved;
       Orquestrador.StatePaymentProcessed; Orquestrador.StateCompleted] /\
  commandTypes (broker c)
    = [("pedidos-commands", "VALIDATE_ORDER"); ("estoque-commands", "RESERVE_STOCK");
       ("pedidos-commands", "CANCEL_ORDER"); ("estoque-commands", "RESERVE_STOCK");
       ("pagamentos-commands", "PROCESS_PAYMENT");
       ("entregas-commands", "SCHEDULE_DELIVERY")] /\
  Pedidos.orders.status <$> table (pedidos c) = ["CANCELLED"] /\
  Estoque.stock_reservations.status <$> table (estoque c) = ["RESERVED"] /\
  Pagamentos.payments.status <$> table (pagamentos c) = ["APPROVED"] /\
  Pagamentos.payments.amount <$> table (pagamentos c) = [0%Q] /\
  Entregas.deliveries.status <$> table (entregas c) = ["SCHEDULED"].
Proof.
  apply (failed_saga_is_completed_by_its_compensation
           (example_clock 0) (example_clock 1) (example_clock 2)
           (example_clock 3) (example_clock 4)
           pretty pretty pretty pretty pretty
           (fun _ => 50%Z) (fun _ => 50%Z) refuse_first (fun _ => 50%Z)
           (fun _ => 50%Z) example_order); simpl; lia.
Defined.
